(** * CapturePhoto: the camera session lifecycle of the capture widget

    A shallow embedding of
    [src/components/feature/CapturePhoto/CapturePhoto.tsx].

    The component is event driven.  Every handler runs on the single UI
    thread until it returns or reaches an [await]; the rest of an [async]
    function is resumed later, when the platform promise settles.  The
    embedding keeps this structure: a [World] holds the React state, the
    refs, the module-level [globalStream], the platform and the promises
    still in flight together with the code that awaits them; [step] runs
    one callback (a click handler, a promise continuation, a media event)
    and then lets React commit the render. *)

From Stdlib Require QArith.
From stdpp Require Import gmap strings list.

Local Open Scope string_scope.
#[local] Set Warnings "-clear-no-such-hyp".

(** ** Types of the source *)

Inductive PermissionState := granted | denied | prompt.
Inductive FacingMode := user | environment.

Global Instance PermissionState_eq_dec : EqDecision PermissionState.
Proof. solve_decision. Defined.
Global Instance FacingMode_eq_dec : EqDecision FacingMode.
Proof. solve_decision. Defined.

(** [{ facingMode, width: { ideal }, height: { ideal } }] *)
Record MediaTrackConstraints := {
  c_facingMode : FacingMode;
  c_width_ideal : N;
  c_height_ideal : N
}.

(** A [MediaStream] is identified by the order in which the platform
    handed it out. *)
Definition MediaStream := nat.

(** JavaScript truthiness of a string and of [string | null]. *)
Definition truthy (s : string) : bool := negb (String.eqb s "").

Definition truthy_opt (o : option string) : bool :=
  match o with
  | Some s => truthy s
  | None => false
  end.

(** ** DOM elements reached through the refs *)

(** The event handler properties [onplaying] and [oncanplay] are either
    unset or hold [informCameraReady]. *)
Record HTMLVideoElement := {
  videoWidth : N;
  videoHeight : N;
  srcObject : option MediaStream;
  onplaying : bool;
  oncanplay : bool
}.

(** Calls made on the 2D context since the bitmap was last reset. *)
Inductive ContextCall :=
| Scale (x y : Z)
| DrawImage (source : HTMLVideoElement) (dx dy dw dh : Z).

Record HTMLCanvasElement := {
  cv_width : N;
  cv_height : N;
  cv_calls : list ContextCall
}.

Record HTMLImageElement := { src : string }.

(** A [<video>] and a [<canvas>] as React creates them. *)
Definition fresh_video : HTMLVideoElement :=
  {| videoWidth := 0; videoHeight := 0; srcObject := None;
     onplaying := false; oncanplay := false |}.

Definition fresh_canvas : HTMLCanvasElement :=
  {| cv_width := 300; cv_height := 150; cv_calls := [] |}.

(** [canvas.width] and [canvas.height] reflect their content attributes as
    unsigned longs limited to non-negative numbers: a value up to
    2147483647 is kept, a larger one falls back to the default, 300 for
    the width and 150 for the height. *)
Definition maxReflected : N := 2147483647.

Definition reflected (default n : N) : N :=
  if (n <=? maxReflected)%N then n else default.

(** Assigning [canvas.width] or [canvas.height] resets the bitmap and the
    context state, also when the value does not change. *)
Definition set_canvas_width (n : N) (c : HTMLCanvasElement) : HTMLCanvasElement :=
  {| cv_width := reflected 300 n; cv_height := cv_height c; cv_calls := [] |}.

Definition set_canvas_height (n : N) (c : HTMLCanvasElement) : HTMLCanvasElement :=
  {| cv_width := cv_width c; cv_height := reflected 150 n; cv_calls := [] |}.

Definition context_call (k : ContextCall) (c : HTMLCanvasElement) : HTMLCanvasElement :=
  {| cv_width := cv_width c; cv_height := cv_height c;
     cv_calls := cv_calls c ++ [k] |}.

(** ** The platform *)

(** Who awaits a promise: [startCamera] called from [requestCameraAccess],
    or from [switchCamera], whose closure holds the facing mode of the
    render it was created in. *)
Inductive Caller :=
| ByRequest
| BySwitch (prior : FacingMode).

Inductive Await :=
| AwaitGetUserMedia (k : Caller)
| AwaitPlay (k : Caller).

Record Platform := {
  (** ["mediaDevices" in navigator && "getUserMedia" in navigator.mediaDevices] *)
  hasMediaDevices : bool;
  (** [canvas.getContext('2d')] is not null *)
  hasContext2d : bool;
  (** streams that still have a track that was not stopped *)
  live : gset MediaStream;
  nextStream : MediaStream;
  (** the constraints of every [getUserMedia] call, oldest first *)
  gumCalls : list MediaTrackConstraints;
  (** [canvas.toDataURL(type, quality)] *)
  toDataURL : HTMLCanvasElement -> string -> QArith_base.Q -> string
}.

(** ** React state of one mounted component *)

Record State := {
  isOpen : bool;
  capturedImage : option string;
  error : string;
  permission : PermissionState;
  isLoading : bool;
  facingMode : FacingMode;
  isCameraReady : bool
}.

Record World := {
  state : State;
  readyCalledRef : bool;
  videoRef : option HTMLVideoElement;
  canvasRef : option HTMLCanvasElement;
  (** the caller-owned [imageRef.current] *)
  imageRef : option HTMLImageElement;
  (** the module-level [let globalStream] *)
  globalStream : option MediaStream;
  platform : Platform;
  (** promises in flight, by the order in which they were created *)
  pending : gmap nat Await;
  nextTask : nat;
  mounted : bool;
  (** video elements that left the page; their [onplaying] and [oncanplay]
      stay as they were set, so an event queued for them still runs the
      listener *)
  detached : list HTMLVideoElement
}.

(** ** State setters *)

Definition with_state (f : State -> State) (w : World) : World :=
  {| state := f (state w); readyCalledRef := readyCalledRef w;
     videoRef := videoRef w; canvasRef := canvasRef w; imageRef := imageRef w;
     globalStream := globalStream w; platform := platform w;
     pending := pending w; nextTask := nextTask w; mounted := mounted w;
     detached := detached w |}.

Definition setIsOpen (b : bool) : World -> World :=
  with_state (fun s =>
    {| isOpen := b; capturedImage := capturedImage s; error := error s;
       permission := permission s; isLoading := isLoading s;
       facingMode := facingMode s; isCameraReady := isCameraReady s |}).

Definition setCapturedImage (o : option string) : World -> World :=
  with_state (fun s =>
    {| isOpen := isOpen s; capturedImage := o; error := error s;
       permission := permission s; isLoading := isLoading s;
       facingMode := facingMode s; isCameraReady := isCameraReady s |}).

Definition setError (e : string) : World -> World :=
  with_state (fun s =>
    {| isOpen := isOpen s; capturedImage := capturedImage s; error := e;
       permission := permission s; isLoading := isLoading s;
       facingMode := facingMode s; isCameraReady := isCameraReady s |}).

Definition setPermission (p : PermissionState) : World -> World :=
  with_state (fun s =>
    {| isOpen := isOpen s; capturedImage := capturedImage s; error := error s;
       permission := p; isLoading := isLoading s;
       facingMode := facingMode s; isCameraReady := isCameraReady s |}).

Definition setIsLoading (b : bool) : World -> World :=
  with_state (fun s =>
    {| isOpen := isOpen s; capturedImage := capturedImage s; error := error s;
       permission := permission s; isLoading := b;
       facingMode := facingMode s; isCameraReady := isCameraReady s |}).

Definition setFacingMode (m : FacingMode) : World -> World :=
  with_state (fun s =>
    {| isOpen := isOpen s; capturedImage := capturedImage s; error := error s;
       permission := permission s; isLoading := isLoading s;
       facingMode := m; isCameraReady := isCameraReady s |}).

Definition setIsCameraReady (b : bool) : World -> World :=
  with_state (fun s =>
    {| isOpen := isOpen s; capturedImage := capturedImage s; error := error s;
       permission := permission s; isLoading := isLoading s;
       facingMode := facingMode s; isCameraReady := b |}).

(** ** Writes to refs, the global and the platform *)

Definition set_readyCalledRef (b : bool) (w : World) : World :=
  {| state := state w; readyCalledRef := b;
     videoRef := videoRef w; canvasRef := canvasRef w; imageRef := imageRef w;
     globalStream := globalStream w; platform := platform w;
     pending := pending w; nextTask := nextTask w; mounted := mounted w;
     detached := detached w |}.

Definition set_videoRef (v : option HTMLVideoElement) (w : World) : World :=
  {| state := state w; readyCalledRef := readyCalledRef w;
     videoRef := v; canvasRef := canvasRef w; imageRef := imageRef w;
     globalStream := globalStream w; platform := platform w;
     pending := pending w; nextTask := nextTask w; mounted := mounted w;
     detached := detached w |}.

Definition set_canvasRef (c : option HTMLCanvasElement) (w : World) : World :=
  {| state := state w; readyCalledRef := readyCalledRef w;
     videoRef := videoRef w; canvasRef := c; imageRef := imageRef w;
     globalStream := globalStream w; platform := platform w;
     pending := pending w; nextTask := nextTask w; mounted := mounted w;
     detached := detached w |}.

Definition set_imageRef (i : option HTMLImageElement) (w : World) : World :=
  {| state := state w; readyCalledRef := readyCalledRef w;
     videoRef := videoRef w; canvasRef := canvasRef w; imageRef := i;
     globalStream := globalStream w; platform := platform w;
     pending := pending w; nextTask := nextTask w; mounted := mounted w;
     detached := detached w |}.

Definition set_globalStream (g : option MediaStream) (w : World) : World :=
  {| state := state w; readyCalledRef := readyCalledRef w;
     videoRef := videoRef w; canvasRef := canvasRef w; imageRef := imageRef w;
     globalStream := g; platform := platform w;
     pending := pending w; nextTask := nextTask w; mounted := mounted w;
     detached := detached w |}.

Definition with_platform (f : Platform -> Platform) (w : World) : World :=
  {| state := state w; readyCalledRef := readyCalledRef w;
     videoRef := videoRef w; canvasRef := canvasRef w; imageRef := imageRef w;
     globalStream := globalStream w; platform := f (platform w);
     pending := pending w; nextTask := nextTask w; mounted := mounted w;
     detached := detached w |}.

Definition set_pending (p : gmap nat Await) (w : World) : World :=
  {| state := state w; readyCalledRef := readyCalledRef w;
     videoRef := videoRef w; canvasRef := canvasRef w; imageRef := imageRef w;
     globalStream := globalStream w; platform := platform w;
     pending := p; nextTask := nextTask w; mounted := mounted w;
     detached := detached w |}.

Definition set_mounted (b : bool) (w : World) : World :=
  {| state := state w; readyCalledRef := readyCalledRef w;
     videoRef := videoRef w; canvasRef := canvasRef w; imageRef := imageRef w;
     globalStream := globalStream w; platform := platform w;
     pending := pending w; nextTask := nextTask w; mounted := b;
     detached := detached w |}.

Definition set_detached (l : list HTMLVideoElement) (w : World) : World :=
  {| state := state w; readyCalledRef := readyCalledRef w;
     videoRef := videoRef w; canvasRef := canvasRef w; imageRef := imageRef w;
     globalStream := globalStream w; platform := platform w;
     pending := pending w; nextTask := nextTask w; mounted := mounted w;
     detached := l |}.

(** A new promise is in flight; its continuation is [a]. *)
Definition suspend (a : Await) (w : World) : World :=
  {| state := state w; readyCalledRef := readyCalledRef w;
     videoRef := videoRef w; canvasRef := canvasRef w; imageRef := imageRef w;
     globalStream := globalStream w; platform := platform w;
     pending := <[nextTask w := a]> (pending w); nextTask := S (nextTask w);
     mounted := mounted w;
     detached := detached w |}.

(** [track.stop()] on every track of the stream. *)
Definition stop_tracks (s : MediaStream) (p : Platform) : Platform :=
  {| hasMediaDevices := hasMediaDevices p; hasContext2d := hasContext2d p;
     live := live p ∖ {[s]}; nextStream := nextStream p;
     gumCalls := gumCalls p; toDataURL := toDataURL p |}.

(** [navigator.mediaDevices.getUserMedia({ video: constraints })] is called. *)
Definition call_getUserMedia (c : MediaTrackConstraints) (p : Platform) : Platform :=
  {| hasMediaDevices := hasMediaDevices p; hasContext2d := hasContext2d p;
     live := live p; nextStream := nextStream p;
     gumCalls := gumCalls p ++ [c]; toDataURL := toDataURL p |}.

(** The platform opens the camera and hands out a new stream. *)
Definition open_stream (p : Platform) : Platform :=
  {| hasMediaDevices := hasMediaDevices p; hasContext2d := hasContext2d p;
     live := {[nextStream p]} ∪ live p; nextStream := S (nextStream p);
     gumCalls := gumCalls p; toDataURL := toDataURL p |}.

(** The number of camera stream handles that are alive. *)
Definition alive (w : World) : nat := size (live (platform w)).

(** ** Module-level code *)

(** [stopExistingCameraStreams] *)
Definition stopExistingCameraStreams (w : World) : World :=
  let w1 :=
    match globalStream w with
    | Some s => with_platform (stop_tracks s) w
    | None => w
    end in
  set_globalStream None w1.

(** ** The component's functions *)

(** [informCameraReady], the handler of both readiness signals. *)
Definition informCameraReady (w : World) : World :=
  if readyCalledRef w then w
  else setIsLoading false (setIsCameraReady true (set_readyCalledRef true w)).

(** The constraints built by [requestCameraAccess] and [switchCamera]. *)
Definition constraintsFor (m : FacingMode) : MediaTrackConstraints :=
  {| c_facingMode := m; c_width_ideal := 1280; c_height_ideal := 720 |}.

(** An [async] function either throws before its first [await] or is
    suspended there. *)
Inductive Started :=
| Threw (name : string) (w : World)
| Suspended (w : World).

(** [startCamera] up to [await navigator.mediaDevices.getUserMedia(...)].
    [new Error("Camera not supported on this device")] has the name
    ["Error"]. *)
Definition startCamera (constraints : MediaTrackConstraints) (k : Caller)
    (w : World) : Started :=
  if negb (hasMediaDevices (platform w)) then Threw "Error" w
  else
    let w1 := stopExistingCameraStreams w in
    let w2 := with_platform (call_getUserMedia constraints) w1 in
    Suspended (suspend (AwaitGetUserMedia k) w2).

(** What follows [await startCamera(constraints)] in the caller:
    [setPermission('granted')] in [requestCameraAccess], nothing in
    [switchCamera]. *)
Definition startCamera_returned (k : Caller) (w : World) : World :=
  match k with
  | ByRequest => setPermission granted w
  | BySwitch _ => w
  end.

Definition arm (s : MediaStream) (v : HTMLVideoElement) : HTMLVideoElement :=
  {| videoWidth := videoWidth v; videoHeight := videoHeight v;
     srcObject := Some s; onplaying := true; oncanplay := true |}.

(** [startCamera] from the point where [getUserMedia] resolves: the new
    stream is stored in [globalStream]; when the video element is mounted
    the latch is reset, both listeners are set, the stream is attached and
    [play()] is awaited. *)
Definition startCamera_resolved (k : Caller) (w : World) : World :=
  let s := nextStream (platform w) in
  let w1 := set_globalStream (Some s) (with_platform open_stream w) in
  match videoRef w1 with
  | Some v =>
      let w2 := setIsCameraReady false (set_readyCalledRef false w1) in
      let w3 := set_videoRef (Some (arm s v)) w2 in
      suspend (AwaitPlay k) w3
  | None => startCamera_returned k w1
  end.

(** [startCamera] from the point where [play()] settles.  A rejection is
    caught: it is logged and [play()] is called once more from a timer,
    whose own rejection is logged; neither changes the state. *)
Definition startCamera_played (ok : bool) (k : Caller) (w : World) : World :=
  startCamera_returned k w.

Definition msgDenied : string :=
  "Camera access denied. Please allow camera permission and try again.".
Definition msgNotFound : string := "No camera found on this device.".
Definition msgInUse : string :=
  "Camera is already in use by another application.".
Definition msgConstraints : string := "Camera constraints cannot be satisfied.".
Definition msgGeneric : string := "Failed to access camera. Please try again.".
Definition msgSwitch : string :=
  "Failed to switch camera. Using default camera.".
Definition msgNoContext : string := "Canvas context not supported".
Definition msgNoDimensions : string :=
  "Video not ready. Please wait a moment and try again.".
Definition msgCaptureFailed : string :=
  "Failed to capture photo. Please try again.".

(** The [catch] block of [requestCameraAccess]. *)
Definition requestCameraAccess_catch (name : string) (w : World) : World :=
  let w1 :=
    if String.eqb name "NotAllowedError" then
      setPermission denied (setError msgDenied w)
    else if String.eqb name "NotFoundError" then setError msgNotFound w
    else if String.eqb name "NotReadableError" then setError msgInUse w
    else if String.eqb name "OverconstrainedError" then setError msgConstraints w
    else setError msgGeneric w in
  setIsLoading false w1.

(** [requestCameraAccess] up to its first [await]; [fm] is the [facingMode]
    of the render whose closure is running. *)
Definition requestCameraAccess (fm : FacingMode) (w : World) : World :=
  let w1 := setIsCameraReady false (setError "" (setIsLoading true w)) in
  match startCamera (constraintsFor fm) ByRequest w1 with
  | Threw name w2 => requestCameraAccess_catch name w2
  | Suspended w2 => w2
  end.

(** [stopCamera] *)
Definition stopCamera (w : World) : World :=
  set_readyCalledRef false (setIsCameraReady false (stopExistingCameraStreams w)).

(** [handleOpen] *)
Definition handleOpen (w : World) : World :=
  let p := permission (state w) in
  let fm := facingMode (state w) in
  let w1 := setError "" (setCapturedImage None (setIsOpen true w)) in
  match p with
  | granted | prompt => requestCameraAccess fm w1
  | denied => w1
  end.

(** [handleClose] *)
Definition handleClose (w : World) : World :=
  setIsLoading false
    (setError "" (setCapturedImage None (stopCamera (setIsOpen false w)))).

Definition toggle (m : FacingMode) : FacingMode :=
  match m with
  | user => environment
  | environment => user
  end.

(** The [catch] block of [switchCamera]; [prior] is the [facingMode] of the
    closure, which [requestCameraAccess] of the same render shares. *)
Definition switchCamera_catch (prior : FacingMode) (w : World) : World :=
  requestCameraAccess prior (setFacingMode prior (setError msgSwitch w)).

(** [switchCamera] up to its first [await]. *)
Definition switchCamera (w : World) : World :=
  let prior := facingMode (state w) in
  let newFacingMode := toggle prior in
  let w1 := setFacingMode newFacingMode w in
  match globalStream w1 with
  | Some _ =>
      let w2 := setIsCameraReady false (setIsLoading true w1) in
      match startCamera (constraintsFor newFacingMode) (BySwitch prior) w2 with
      | Threw _ w3 => switchCamera_catch prior w3
      | Suspended w3 => w3
      end
  | None => w1
  end.

(** The rejection of an awaited [getUserMedia] reaches the [catch] block of
    the function that called [startCamera]. *)
Definition startCamera_rejected (name : string) (k : Caller) (w : World) : World :=
  match k with
  | ByRequest => requestCameraAccess_catch name w
  | BySwitch prior => switchCamera_catch prior w
  end.

Definition jpegQuality : QArith_base.Q := QArith_base.Qmake 8 10.

(** [capturePhoto] *)
Definition capturePhoto (w : World) : World :=
  match videoRef w, canvasRef w, isCameraReady (state w) with
  | Some video, Some canvas, true =>
      if negb (hasContext2d (platform w)) then setError msgNoContext w
      else if (videoWidth video =? 0)%N || (videoHeight video =? 0)%N then
        setError msgNoDimensions w
      else
        let canvas1 :=
          set_canvas_height (videoHeight video)
            (set_canvas_width (videoWidth video) canvas) in
        let width := Z.of_N (cv_width canvas1) in
        let height := Z.of_N (cv_height canvas1) in
        let canvas2 :=
          match facingMode (state w) with
          | user =>
              context_call (DrawImage video 0 0 (-1 * width) height)
                (context_call (Scale (-1) 1) canvas1)
          | environment =>
              context_call (DrawImage video 0 0 width height) canvas1
          end in
        let w1 := set_canvasRef (Some canvas2) w in
        let imageDataUrl :=
          toDataURL (platform w) canvas2 "image/jpeg" jpegQuality in
        if truthy imageDataUrl && negb (String.eqb imageDataUrl "data:,") then
          setCapturedImage (Some imageDataUrl) w1
        else setError msgCaptureFailed w1
  | _, _, _ => w
  end.

(** [confirmPhoto]; [imageRef?.current] is [None] when the caller's ref is
    not bound to an image. *)
Definition confirmPhoto (w : World) : World :=
  match capturedImage (state w), imageRef w with
  | Some img, Some _ =>
      if truthy img then handleClose (set_imageRef (Some {| src := img |}) w)
      else w
  | _, _ => w
  end.

(** [retakePhoto] *)
Definition retakePhoto (w : World) : World := setCapturedImage None w.

(** ** Rendering *)

(** What [renderCameraView] returns, with the parts that depend on state. *)
Inductive CameraView :=
| ErrorView (message : string) (remediation : bool)
| PreviewView (image : string)
| LiveView (loadingOverlay switchDisabled captureDisabled : bool).

(** [renderCameraView] *)
Definition renderCameraView (s : State) : CameraView :=
  if truthy (error s) then
    ErrorView (error s) (bool_decide (permission s = denied))
  else if truthy_opt (capturedImage s) then
    PreviewView (default "" (capturedImage s))
  else
    LiveView (isLoading s || negb (isCameraReady s))
      (negb (isCameraReady s)) (negb (isCameraReady s)).

(** The modal: rendered only under [isOpen &&]. *)
Definition renderModal (s : State) : option CameraView :=
  if isOpen s then Some (renderCameraView s) else None.

Inductive ViewKind := ErrorKind | PreviewKind | LiveKind.

Global Instance ViewKind_eq_dec : EqDecision ViewKind.
Proof. solve_decision. Defined.

Definition kind (v : CameraView) : ViewKind :=
  match v with
  | ErrorView _ _ => ErrorKind
  | PreviewView _ => PreviewKind
  | LiveView _ _ _ => LiveKind
  end.

(** The [<video>] and the [<canvas>] exist exactly while the live view of
    the open modal is rendered. *)
Definition liveRendered (w : World) : bool :=
  mounted w &&
  match renderModal (state w) with
  | Some (LiveView _ _ _) => true
  | _ => false
  end.

(** The video element, if there is one, leaves the page with its
    listeners. *)
Definition detach (w : World) : World :=
  match videoRef w with
  | Some v => set_detached (v :: detached w) w
  | None => w
  end.

(** React commits the render after a callback: refs of elements that left
    the tree become null, refs of elements that entered it point to new
    elements, the others are kept. *)
Definition commit (w : World) : World :=
  if liveRendered w then
    match videoRef w with
    | Some _ => w
    | None => set_canvasRef (Some fresh_canvas) (set_videoRef (Some fresh_video) w)
    end
  else set_canvasRef None (set_videoRef None (detach w)).

(** ** Callbacks *)

(** What the browser can run next: a click on one of the buttons, the
    unmount of the component, the settlement of a promise, a media event of
    the video element, or a notification of the permission status (the
    answer to the query made on mount, or its [onchange]). *)
Inductive Event :=
| TriggerClick
| CloseClick
| RetryClick
| SwitchCameraClick
| CaptureClick
| RetakeClick
| ConfirmClick
| Unmount
| GetUserMediaResolved (task : nat)
| GetUserMediaRejected (task : nat) (name : string)
| PlaySettled (task : nat) (ok : bool)
| VideoPlaying
| VideoCanPlay
| VideoResized (width height : N)
| PermissionNotified (p : PermissionState).

Definition shows (k : ViewKind) (w : World) : bool :=
  mounted w &&
  match renderModal (state w) with
  | Some v => bool_decide (kind v = k)
  | None => false
  end.

(** A button can be clicked when it is rendered and not [disabled]; a
    promise settles when it is in flight; a listener runs when it is set,
    on the mounted video element or on one that left the page. *)
Definition enabled (w : World) (e : Event) : bool :=
  match e with
  | TriggerClick => mounted w
  | CloseClick => mounted w && isOpen (state w)
  | RetryClick => shows ErrorKind w
  | SwitchCameraClick | CaptureClick =>
      shows LiveKind w && isCameraReady (state w)
  | RetakeClick | ConfirmClick => shows PreviewKind w
  | Unmount => mounted w
  | GetUserMediaResolved t | GetUserMediaRejected t _ =>
      match pending w !! t with
      | Some (AwaitGetUserMedia _) => true
      | _ => false
      end
  | PlaySettled t _ =>
      match pending w !! t with
      | Some (AwaitPlay _) => true
      | _ => false
      end
  | VideoPlaying =>
      match videoRef w with
      | Some v => onplaying v
      | None => false
      end || existsb onplaying (detached w)
  | VideoCanPlay =>
      match videoRef w with
      | Some v => oncanplay v
      | None => false
      end || existsb oncanplay (detached w)
  | VideoResized _ _ =>
      match videoRef w with
      | Some v => bool_decide (is_Some (srcObject v))
      | None => false
      end
  | PermissionNotified _ => mounted w
  end.

Definition resize (width height : N) (v : HTMLVideoElement) : HTMLVideoElement :=
  {| videoWidth := width; videoHeight := height; srcObject := srcObject v;
     onplaying := onplaying v; oncanplay := oncanplay v |}.

(** The code each callback runs.  After the unmount React ignores the state
    updates of continuations that are still to run; the embedding lets
    them update [state], which is no longer rendered ([liveRendered] and
    every click need [mounted]), while [globalStream] and the platform are
    module-level and change as in the source. *)
Definition handle (e : Event) (w : World) : World :=
  match e with
  | TriggerClick => handleOpen w
  | CloseClick => handleClose w
  | RetryClick => requestCameraAccess (facingMode (state w)) w
  | SwitchCameraClick => switchCamera w
  | CaptureClick => capturePhoto w
  | RetakeClick => retakePhoto w
  | ConfirmClick => confirmPhoto w
  | Unmount => set_mounted false (stopExistingCameraStreams w)
  | GetUserMediaResolved t =>
      match pending w !! t with
      | Some (AwaitGetUserMedia k) =>
          startCamera_resolved k (set_pending (delete t (pending w)) w)
      | _ => w
      end
  | GetUserMediaRejected t name =>
      match pending w !! t with
      | Some (AwaitGetUserMedia k) =>
          startCamera_rejected name k (set_pending (delete t (pending w)) w)
      | _ => w
      end
  | PlaySettled t ok =>
      match pending w !! t with
      | Some (AwaitPlay k) =>
          startCamera_played ok k (set_pending (delete t (pending w)) w)
      | _ => w
      end
  | VideoPlaying | VideoCanPlay => informCameraReady w
  | VideoResized width height =>
      set_videoRef (resize width height <$> videoRef w) w
  | PermissionNotified p => setPermission p w
  end.

(** One turn of the event loop: the callback, then the commit.  React
    batches the updates made by one callback, also those made in the
    continuation of an [await], into one render. *)
Definition step (w : World) (e : Event) : World :=
  if enabled w e then commit (handle e w) else w.

Definition run (w : World) (es : list Event) : World := foldl step w es.

(** The states passed through, the first one included. *)
Fixpoint passes (w : World) (es : list Event) : list World :=
  match es with
  | [] => [w]
  | e :: es' => w :: passes (step w e) es'
  end.

(** The component right after its first render, on a platform [p] and with
    the caller's image [img]. *)
Definition initialState : State :=
  {| isOpen := false; capturedImage := None; error := "";
     permission := prompt; isLoading := false; facingMode := user;
     isCameraReady := false |}.

Definition initial (p : Platform) (img : option HTMLImageElement) : World :=
  {| state := initialState; readyCalledRef := false;
     videoRef := None; canvasRef := None; imageRef := img;
     globalStream := None; platform := p;
     pending := ∅; nextTask := 0; mounted := true; detached := [] |}.

(** A browser with a camera, on which no stream is open yet. *)
Definition browser (encode : HTMLCanvasElement -> string -> QArith_base.Q -> string)
    : Platform :=
  {| hasMediaDevices := true; hasContext2d := true; live := ∅;
     nextStream := 0; gumCalls := []; toDataURL := encode |}.

Definition sampleEncoder (c : HTMLCanvasElement) (type : string)
    (quality : QArith_base.Q) : string :=
  "data:image/jpeg;base64,/9j/4AAQ".

Definition sampleWorld : World :=
  initial (browser sampleEncoder) (Some {| src := "" |}).

(** ** Vocabulary of the properties *)

(** A captured frame exists: [capturedImage] holds a non-empty string. *)
Definition hasFrame (s : State) (img : string) : Prop :=
  capturedImage s = Some img ∧ img ≠ "".

(** The view of kind [k] is on screen. *)
Definition rendered (k : ViewKind) (s : State) : Prop :=
  ∃ v, renderModal s = Some v ∧ kind v = k.

(** The number of [getUserMedia] calls made so far. *)
Definition attempts (w : World) : nat := length (gumCalls (platform w)).

(** How often a flag goes from [false] to [true] along a list of its
    successive values. *)
Fixpoint rises (l : list bool) : nat :=
  match l with
  | a :: l' =>
      match l' with
      | b :: _ => (if negb a && b then 1 else 0) + rises l'
      | [] => 0
      end
  | [] => 0
  end.

Definition readiness (w : World) : bool := isCameraReady (state w).

(** One of the two readiness signals. *)
Definition isSignal (e : Event) : bool :=
  match e with
  | VideoPlaying | VideoCanPlay => true
  | _ => false
  end.

(** The callbacks that can set [readyCalledRef] back to false: the
    resolution of [getUserMedia], through [startCamera], and the close and
    confirm clicks, through [stopCamera]. *)
Definition reopensLatch (e : Event) : bool :=
  match e with
  | GetUserMediaResolved _ | CloseClick | ConfirmClick => true
  | _ => false
  end.

(** Two acquisitions overlap and the second resolves under the preview. *)
Definition resolvedUnderPreview : list Event :=
  [TriggerClick; CloseClick; TriggerClick; GetUserMediaResolved 0;
   VideoCanPlay; VideoResized 1280 720; CaptureClick;
   GetUserMediaResolved 1].

(** One acquisition; the second signal of its video runs after the close
    click. *)
Definition signalAfterClose : list Event :=
  [TriggerClick; GetUserMediaResolved 0; VideoCanPlay; CloseClick;
   VideoPlaying].

(** The permission reported to a component that was just mounted. *)
Definition deniedWorld : World := step sampleWorld (PermissionNotified denied).

(** Open, close and open again before the first [getUserMedia] has
    settled; then both promises resolve. *)
Definition overlappingOpens : list Event :=
  [TriggerClick; CloseClick; TriggerClick;
   GetUserMediaResolved 0; GetUserMediaResolved 1].

(** A [getUserMedia] promise is in flight. *)
Definition acquiring (w : World) : Prop :=
  ∃ t k, pending w !! t = Some (AwaitGetUserMedia k).

(** The callbacks that run [stopExistingCameraStreams] or [startCamera]
    from a click or from the unmount. *)
Definition usesCamera (e : Event) : bool :=
  match e with
  | TriggerClick | CloseClick | RetryClick | SwitchCameraClick
  | ConfirmClick | Unmount => true
  | _ => false
  end.

(** The callback runs in turn: it does not use the camera while an
    acquisition is in flight. *)
Definition inTurn (w : World) (e : Event) : Prop :=
  usesCamera e = true -> ¬ acquiring w.

Fixpoint allInTurn (w : World) (es : list Event) : Prop :=
  match es with
  | [] => True
  | e :: es' => inTurn w e ∧ allInTurn (step w e) es'
  end.

(** The single slot discipline: only the stream in [globalStream] is live,
    at most one acquisition is in flight, and the slot is empty while it
    is. *)
Definition singleSlot (w : World) : Prop :=
  live (platform w) ⊆ from_option singleton ∅ (globalStream w) ∧
  (∀ t1 t2 k1 k2,
     pending w !! t1 = Some (AwaitGetUserMedia k1) ->
     pending w !! t2 = Some (AwaitGetUserMedia k2) -> t1 = t2) ∧
  (acquiring w -> globalStream w = None).

(** What a callback does to the streams: nothing; or it stops the global
    stream; or it stops the global stream and requests a new one. *)
Definition keeps (w w' : World) : Prop :=
  live (platform w') = live (platform w) ∧
  globalStream w' = globalStream w ∧ pending w' = pending w.

Definition releases (w w' : World) : Prop :=
  live (platform w') =
    live (platform w) ∖ from_option singleton ∅ (globalStream w) ∧
  globalStream w' = None ∧ pending w' = pending w.

Definition requests (w w' : World) : Prop :=
  live (platform w') =
    live (platform w) ∖ from_option singleton ∅ (globalStream w) ∧
  globalStream w' = None ∧
  ∃ k, pending w' = <[nextTask w := AwaitGetUserMedia k]> (pending w).

(** ** Sample worlds *)

(** The trigger was clicked and [getUserMedia] is in flight. *)
Definition openingWorld : World := step sampleWorld TriggerClick.

(** The camera is streaming 1280x720 frames to the live view. *)
Definition readyWorld : World :=
  run sampleWorld
    [TriggerClick; GetUserMediaResolved 0; PlaySettled 1 true;
     VideoCanPlay; VideoResized 1280 720].

Definition readyVideo : HTMLVideoElement :=
  {| videoWidth := 1280; videoHeight := 720; srcObject := Some 0;
     onplaying := true; oncanplay := true |}.

(** A frame was captured and is previewed. *)
Definition previewWorld : World := step readyWorld CaptureClick.

(** The camera switch was clicked and [getUserMedia] for the other camera
    is in flight. *)
Definition switchingWorld : World := step readyWorld SwitchCameraClick.

(** ** Vocabulary of the further properties *)

(** The refs are as a commit leaves them: both elements exist while the
    live view is rendered, none otherwise. *)
Definition refsBound (w : World) : Prop :=
  if liveRendered w then is_Some (videoRef w) ∧ is_Some (canvasRef w)
  else videoRef w = None ∧ canvasRef w = None.

(** What [capturePhoto] does to the canvas between the guards and the
    encoding: the two assignments and the context calls. *)
Definition paint (fm : FacingMode) (video : HTMLVideoElement)
    (canvas : HTMLCanvasElement) : HTMLCanvasElement :=
  let canvas1 :=
    set_canvas_height (videoHeight video)
      (set_canvas_width (videoWidth video) canvas) in
  let width := Z.of_N (cv_width canvas1) in
  let height := Z.of_N (cv_height canvas1) in
  match fm with
  | user =>
      context_call (DrawImage video 0 0 (-1 * width) height)
        (context_call (Scale (-1) 1) canvas1)
  | environment => context_call (DrawImage video 0 0 width height) canvas1
  end.

(** The resolution every request asks for. *)
Definition idealResolution (c : MediaTrackConstraints) : Prop :=
  c_width_ideal c = 1280%N ∧ c_height_ideal c = 720%N.

(** While the modal is closed no frame is held. *)
Definition closedClean (w : World) : Prop :=
  isOpen (state w) = false -> capturedImage (state w) = None.

(** The request was rejected because the user denied the camera. *)
Definition deniedErrorWorld : World :=
  step openingWorld (GetUserMediaRejected 0 "NotAllowedError").

(** A browser without [navigator.mediaDevices]. *)
Definition bareWorld : World :=
  initial
    {| hasMediaDevices := false; hasContext2d := true; live := ∅;
       nextStream := 0; gumCalls := []; toDataURL := sampleEncoder |}
    None.

(** The modal was closed while [getUserMedia] was in flight. *)
Definition closedEarlyWorld : World := run sampleWorld [TriggerClick; CloseClick].

(** Two acquisitions overlapped: stream 0 is live outside the slot. *)
Definition leakedWorld : World := run sampleWorld overlappingOpens.

(** ** Proof automation *)

(** Expose the fields of a world. *)
Ltac destruct_world w :=
  let s := fresh "s" in
  destruct w as [s ? ? ? ? ? ? ? ? ? ?]; destruct s; simpl in *.

(** Unfold the handlers, callers before callees, and split on every test
    they make. *)
Ltac unfold_handlers :=
  unfold startCamera_rejected, startCamera_played, confirmPhoto, handleOpen,
    switchCamera, switchCamera_catch, handleClose, requestCameraAccess,
    requestCameraAccess_catch, startCamera_returned, startCamera, stopCamera,
    stopExistingCameraStreams, capturePhoto, retakePhoto in *.

Ltac crush_world w :=
  unfold_handlers; destruct_world w;
  repeat (case_match; simpl in *; simplify_eq); try done.

(** Choose among [keeps], [releases] and [requests]. *)
Ltac pick_footprint :=
  unfold keeps, releases, requests; simpl;
  first
    [ left; by repeat split
    | right; left; repeat split; try done; set_solver
    | right; right; repeat split; try done; first [by eexists | set_solver] ].

(** * Properties *)

(** ** Basic facts *)

Lemma truthy_true (s : string) : truthy s = true <-> s ≠ "".
Proof.
  unfold truthy. destruct (String.eqb_spec s ""); simpl; split; congruence.
Qed.

Lemma truthy_false (s : string) : truthy s = false <-> s = "".
Proof.
  unfold truthy. destruct (String.eqb_spec s ""); simpl; split; congruence.
Qed.

Lemma truthy_opt_true (o : option string) :
  truthy_opt o = true <-> ∃ img, o = Some img ∧ img ≠ "".
Proof.
  destruct o as [img|]; simpl.
  - rewrite truthy_true. split.
    + intros H. exists img. by split.
    + intros (img' & [= ->] & H). done.
  - split; [done | intros (img & H & _); done].
Qed.

(** A size the canvas cannot keep falls back to the default. *)
Lemma canvas_size_falls_back (n : N) (c : HTMLCanvasElement) :
  (2147483647 < n)%N ->
  cv_width (set_canvas_width n c) = 300%N ∧
  cv_height (set_canvas_height n c) = 150%N.
Proof.
  intros H. unfold set_canvas_width, set_canvas_height, reflected, maxReflected.
  simpl. apply N.leb_gt in H. by rewrite H.
Qed.

(** ** The view selector *)

Lemma renderCameraView_error (s : State) :
  error s ≠ "" ->
  renderCameraView s = ErrorView (error s) (bool_decide (permission s = denied)).
Proof.
  intros H. unfold renderCameraView. by rewrite (proj2 (truthy_true _) H).
Qed.

Lemma renderCameraView_preview (s : State) (img : string) :
  error s = "" -> hasFrame s img -> renderCameraView s = PreviewView img.
Proof.
  intros He [Hc Hi]. unfold renderCameraView.
  rewrite (proj2 (truthy_false _) He), Hc. simpl.
  by rewrite (proj2 (truthy_true _) Hi).
Qed.

Lemma renderCameraView_live (s : State) :
  error s = "" -> truthy_opt (capturedImage s) = false ->
  renderCameraView s =
    LiveView (isLoading s || negb (isCameraReady s))
      (negb (isCameraReady s)) (negb (isCameraReady s)).
Proof.
  intros He Hc. unfold renderCameraView.
  by rewrite (proj2 (truthy_false _) He), Hc.
Qed.

(** C9.  While the modal is open exactly one of the error view, the preview
    and the live view is rendered: the error view whenever the error
    message is not empty, also when a captured frame exists; otherwise the
    preview whenever a captured frame exists; otherwise the live view. *)
Theorem view_selector_priority (s : State) :
  isOpen s = true ->
  (∃ k, rendered k s ∧ ∀ k', rendered k' s -> k' = k) ∧
  (rendered ErrorKind s <-> error s ≠ "") ∧
  (rendered PreviewKind s <->
     error s = "" ∧ truthy_opt (capturedImage s) = true) ∧
  (rendered LiveKind s <->
     error s = "" ∧ truthy_opt (capturedImage s) = false) ∧
  (∀ img, error s ≠ "" -> hasFrame s img -> ¬ rendered PreviewKind s) ∧
  (∀ img, error s = "" -> hasFrame s img ->
     renderModal s = Some (PreviewView img)).
Proof.
  intros Ho.
  assert (Hm : renderModal s = Some (renderCameraView s))
    by (unfold renderModal; by rewrite Ho).
  assert (Hk : ∀ k, rendered k s <-> kind (renderCameraView s) = k).
  { intros k. unfold rendered. rewrite Hm. split.
    - by intros (v & [= <-] & H).
    - intros H. by exists (renderCameraView s). }
  assert (Hcases :
    (error s ≠ "" ∧ kind (renderCameraView s) = ErrorKind) ∨
    (error s = "" ∧ truthy_opt (capturedImage s) = true ∧
       kind (renderCameraView s) = PreviewKind) ∨
    (error s = "" ∧ truthy_opt (capturedImage s) = false ∧
       kind (renderCameraView s) = LiveKind)).
  { destruct (decide (error s = "")) as [He|He].
    - right. destruct (truthy_opt (capturedImage s)) eqn:Hc.
      + left. apply truthy_opt_true in Hc as (img & Hc & Hi).
        rewrite (renderCameraView_preview s img); [done | done | by split].
      + right. by rewrite renderCameraView_live.
    - left. by rewrite renderCameraView_error. }
  split; [|split; [|split; [|split; [|split]]]].
  - exists (kind (renderCameraView s)). split; [by apply Hk|].
    intros k' H. by apply Hk in H.
  - rewrite Hk. destruct Hcases as [[? E]|[(? & ? & E)|(? & ? & E)]];
      rewrite E; split; (done || congruence).
  - rewrite Hk. destruct Hcases as [[? E]|[(? & ? & E)|(? & ? & E)]];
      rewrite E; split; try done; try congruence; intros [? ?]; congruence.
  - rewrite Hk. destruct Hcases as [[? E]|[(? & ? & E)|(? & ? & E)]];
      rewrite E; split; try done; try congruence; intros [? ?]; congruence.
  - intros img He _. rewrite Hk, renderCameraView_error; done.
  - intros img He Hf. rewrite Hm. f_equal. by apply renderCameraView_preview.
Qed.

(** ** Confirming a frame *)

Lemma stopExistingCameraStreams_global (w : World) :
  globalStream (stopExistingCameraStreams w) = None.
Proof. done. Qed.

Lemma stopExistingCameraStreams_live (w : World) :
  live (platform (stopExistingCameraStreams w)) =
  live (platform w) ∖ from_option singleton ∅ (globalStream w).
Proof.
  unfold stopExistingCameraStreams.
  destruct (globalStream w); simpl; set_solver.
Qed.

Lemma stopExistingCameraStreams_state (w : World) :
  state (stopExistingCameraStreams w) = state w.
Proof.
  unfold stopExistingCameraStreams. destruct (globalStream w); reflexivity.
Qed.

Lemma handleClose_closed (w : World) :
  let w' := handleClose w in
  isOpen (state w') = false ∧ capturedImage (state w') = None ∧
  error (state w') = "" ∧ isLoading (state w') = false ∧
  isCameraReady (state w') = false ∧ readyCalledRef w' = false ∧
  globalStream w' = None ∧
  live (platform w') =
    live (platform w) ∖ from_option singleton ∅ (globalStream w) ∧
  imageRef w' = imageRef w.
Proof.
  unfold handleClose, stopCamera, stopExistingCameraStreams.
  destruct (globalStream w) as [g|] eqn:Hg; simpl; rewrite ?Hg; simpl;
    repeat split; try done; set_solver.
Qed.

(** C6.  When a captured frame exists and the caller's image is bound,
    confirming writes exactly that frame into the image's [src] and closes
    the widget: the modal is no longer rendered, the tracks of the global
    stream are stopped and the global slot is empty, the readiness flag,
    the captured frame, the error and the loading flag are cleared. *)
Theorem confirm_hands_over_frame (w : World) (img : string)
    (i : HTMLImageElement) :
  hasFrame (state w) img ->
  imageRef w = Some i ->
  let w' := confirmPhoto w in
  imageRef w' = Some {| src := img |} ∧
  isOpen (state w') = false ∧
  renderModal (state w') = None ∧
  globalStream w' = None ∧
  (∀ s, globalStream w = Some s -> s ∉ live (platform w')) ∧
  live (platform w') ⊆ live (platform w) ∧
  isCameraReady (state w') = false ∧
  capturedImage (state w') = None ∧
  error (state w') = "" ∧
  isLoading (state w') = false.
Proof.
  intros [Hc Hi] Hr. unfold confirmPhoto. rewrite Hc, Hr.
  rewrite (proj2 (truthy_true _) Hi). cbv zeta.
  pose proof (handleClose_closed (set_imageRef (Some {| src := img |}) w))
    as (Ho & Hcap & He & Hl & Hrdy & _ & Hg & Hlive & Him).
  change (platform (set_imageRef (Some {| src := img |}) w))
    with (platform w) in Hlive.
  change (globalStream (set_imageRef (Some {| src := img |}) w))
    with (globalStream w) in Hlive.
  split; [done|]. split; [done|].
  split; [unfold renderModal; by rewrite Ho|]. split; [done|].
  split; [intros s Hs; rewrite Hlive, Hs; set_solver|].
  split; [rewrite Hlive; set_solver|]. done.
Qed.

(** C10.  Without a captured frame, or without a bound image, confirming
    changes nothing: the image is not written, the modal stays as it is,
    no track is stopped and the captured frame is kept. *)
Theorem confirm_without_frame_or_image (w : World) :
  truthy_opt (capturedImage (state w)) = false ∨ imageRef w = None ->
  confirmPhoto w = w ∧
  imageRef (confirmPhoto w) = imageRef w ∧
  isOpen (state (confirmPhoto w)) = isOpen (state w) ∧
  globalStream (confirmPhoto w) = globalStream w ∧
  live (platform (confirmPhoto w)) = live (platform w) ∧
  capturedImage (state (confirmPhoto w)) = capturedImage (state w).
Proof.
  intros H.
  assert (E : confirmPhoto w = w).
  { unfold confirmPhoto.
    destruct (capturedImage (state w)) as [img|]; [|done].
    destruct (imageRef w); [|done].
    destruct H as [H|H]; [|done]. simpl in H. by rewrite H. }
  by rewrite E.
Qed.

(** ** Capturing a frame *)

Lemma setError_renders_error (e : string) (w : World) :
  e ≠ "" -> kind (renderCameraView (state (setError e w))) = ErrorKind.
Proof. intros H. by rewrite renderCameraView_error. Qed.

Lemma not_rendered_preview_error (e : string) (w : World) :
  e ≠ "" -> ¬ rendered PreviewKind (state (setError e w)).
Proof.
  intros H (v & Hv & Hk). unfold renderModal in Hv.
  destruct (isOpen _); [|done].
  assert (Hv' : v = renderCameraView (state (setError e w))) by congruence.
  rewrite Hv', setError_renders_error in Hk; done.
Qed.

(** C3.  A capture invoked while the readiness flag is false, or while the
    video reports no intrinsic size, or without a canvas, or without a 2D
    context, is rejected: the world is left as it was except, at most, for
    the error message; no frame is stored and the preview does not
    appear. *)
Theorem capture_rejected (w : World) :
  isCameraReady (state w) = false ∨
  (∃ v, videoRef w = Some v ∧ videoWidth v = 0%N ∧ videoHeight v = 0%N) ∨
  canvasRef w = None ∨
  hasContext2d (platform w) = false ->
  let w' := capturePhoto w in
  (w' = w ∨ w' = setError msgNoContext w ∨ w' = setError msgNoDimensions w) ∧
  capturedImage (state w') = capturedImage (state w) ∧
  (¬ rendered PreviewKind (state w) -> ¬ rendered PreviewKind (state w')).
Proof.
  intros H.
  assert (E : capturePhoto w = w ∨ capturePhoto w = setError msgNoContext w ∨
              capturePhoto w = setError msgNoDimensions w).
  { unfold capturePhoto.
    destruct (videoRef w) as [video|] eqn:Hv; [|by left].
    destruct (canvasRef w) as [canvas|] eqn:Hc; [|by left].
    destruct (isCameraReady (state w)) eqn:Hr; [|by left].
    destruct (hasContext2d (platform w)) eqn:Hx; simpl; [|right; by left].
    destruct H as [H|[(v & [= <-] & Hw & Hh)|[H|H]]]; try done.
    rewrite Hw. simpl. right; by right. }
  simpl. split; [done|].
  destruct E as [->|[->| ->]]; split; try done; intros _;
    by apply not_rendered_preview_error.
Qed.

Lemma commit_state (w : World) : state (commit w) = state w.
Proof.
  unfold commit, detach. by destruct (liveRendered w), (videoRef w).
Qed.

Lemma commit_platform (w : World) : platform (commit w) = platform w.
Proof.
  unfold commit, detach. by destruct (liveRendered w), (videoRef w).
Qed.

Lemma commit_globalStream (w : World) : globalStream (commit w) = globalStream w.
Proof.
  unfold commit, detach. by destruct (liveRendered w), (videoRef w).
Qed.

Lemma commit_pending (w : World) : pending (commit w) = pending w.
Proof.
  unfold commit, detach. by destruct (liveRendered w), (videoRef w).
Qed.

Lemma liveRendered_state (w : World) :
  liveRendered w = true ->
  mounted w = true ∧ isOpen (state w) = true ∧ error (state w) = "" ∧
  truthy_opt (capturedImage (state w)) = false.
Proof.
  unfold liveRendered, renderModal, renderCameraView.
  destruct (mounted w), (isOpen (state w)); simpl; try done.
  destruct (truthy (error (state w))) eqn:He; [done|].
  destruct (truthy_opt (capturedImage (state w))); [done|].
  intros _. by apply truthy_false in He.
Qed.

(** In a committed world the video element exists only in the live view. *)
Lemma committed_video (w : World) (v : HTMLVideoElement) :
  commit w = w -> videoRef w = Some v -> liveRendered w = true.
Proof.
  unfold commit. destruct (liveRendered w); [done|].
  intros H Hv. rewrite <- H in Hv. done.
Qed.

Lemma commit_idempotent (w : World) : commit (commit w) = commit w.
Proof.
  assert (L : ∀ a b,
    liveRendered (set_canvasRef a (set_videoRef b w)) = liveRendered w) by done.
  assert (L' : ∀ a b,
    liveRendered (set_canvasRef a (set_videoRef b (detach w))) =
    liveRendered w).
  { intros a b. unfold detach. by destruct (videoRef w). }
  unfold commit. destruct (liveRendered w) eqn:Hl.
  - destruct (videoRef w) eqn:Hv.
    + by rewrite Hl, Hv.
    + by rewrite L.
  - by rewrite L'.
Qed.

Lemma step_committed (w : World) (e : Event) :
  commit w = w -> commit (step w e) = step w e.
Proof.
  intros H. unfold step. destruct (enabled w e); [|done].
  apply commit_idempotent.
Qed.

(** C4.  When every guard passes, and the intrinsic width and height of the
    video are within the 2147483647 that [canvas.width] and
    [canvas.height] keep, the canvas gets exactly the intrinsic
    width and height of the video; the context is flipped horizontally
    before the frame is drawn when the facing mode is [user] and is not
    flipped when it is [environment]; the canvas is encoded as
    ["image/jpeg"] at quality 8/10; an empty encoding or ["data:,"] sets the
    capture failure message and stores nothing; any other encoding is
    stored as the captured frame and the modal renders its preview. *)
Theorem capture_proceeds (w : World) (video : HTMLVideoElement)
    (canvas : HTMLCanvasElement) :
  commit w = w ->
  videoRef w = Some video ->
  canvasRef w = Some canvas ->
  isCameraReady (state w) = true ->
  hasContext2d (platform w) = true ->
  videoWidth video ≠ 0%N ->
  videoHeight video ≠ 0%N ->
  (videoWidth video ≤ 2147483647)%N ->
  (videoHeight video ≤ 2147483647)%N ->
  let w' := capturePhoto w in
  let width := Z.of_N (videoWidth video) in
  let height := Z.of_N (videoHeight video) in
  ∃ surface,
    canvasRef w' = Some surface ∧
    cv_width surface = videoWidth video ∧
    cv_height surface = videoHeight video ∧
    (facingMode (state w) = user ->
       cv_calls surface =
         [Scale (-1) 1; DrawImage video 0 0 (- width) height]) ∧
    (facingMode (state w) = environment ->
       cv_calls surface = [DrawImage video 0 0 width height]) ∧
    let url :=
      toDataURL (platform w) surface "image/jpeg" (QArith_base.Qmake 8 10) in
    (url = "" ∨ url = "data:," ->
       error (state w') = "Failed to capture photo. Please try again." ∧
       capturedImage (state w') = capturedImage (state w) ∧
       ¬ rendered PreviewKind (state w')) ∧
    (url ≠ "" -> url ≠ "data:," ->
       capturedImage (state w') = Some url ∧
       renderModal (state w') = Some (PreviewView url)).
Proof.
  intros Hc Hv Hcv Hr Hx Hw Hh Hbw Hbh.
  pose proof (liveRendered_state w (committed_video w video Hc Hv))
    as (_ & Ho & He & _).
  cbv zeta. unfold capturePhoto. rewrite Hv, Hcv, Hr, Hx.
  apply N.eqb_neq in Hw, Hh. rewrite Hw, Hh. cbn [negb orb].
  unfold set_canvas_height, set_canvas_width, reflected, maxReflected.
  apply N.leb_le in Hbw, Hbh. rewrite Hbw, Hbh.
  match goal with
  | |- context [toDataURL ?p ?c ?t ?q] =>
      set (surface := c); set (url := toDataURL p surface t q)
  end.
  assert (Hs : cv_width surface = videoWidth video ∧
               cv_height surface = videoHeight video).
  { unfold surface. by destruct (facingMode (state w)). }
  destruct Hs as [Hsw Hsh].
  exists surface.
  assert (Hcanvas : ∀ (o : bool) (e : string),
    canvasRef (if o then setCapturedImage (Some url)
                           (set_canvasRef (Some surface) w)
               else setError e (set_canvasRef (Some surface) w))
    = Some surface) by (intros [] ?; done).
  split; [apply Hcanvas|]. split; [done|]. split; [done|].
  split; [|split].
  - intros Hf. unfold surface. rewrite Hf. simpl. repeat f_equal; lia.
  - intros Hf. unfold surface. by rewrite Hf.
  - change (QArith_base.Qmake 8 10) with jpegQuality. fold url. split.
    + intros Hu.
      assert (E : truthy url && negb (String.eqb url "data:,") = false).
      { destruct Hu as [-> | ->]; done. }
      rewrite E. split; [done|]. split; [done|].
      by apply not_rendered_preview_error.
    + intros H1 H2.
      assert (E : truthy url && negb (String.eqb url "data:,") = true).
      { rewrite (proj2 (truthy_true _) H1).
        by rewrite (proj2 (String.eqb_neq _ _) H2). }
      rewrite E. split; [done|].
      unfold renderModal.
      change (isOpen (state (setCapturedImage (Some url)
                (set_canvasRef (Some surface) w))))
        with (isOpen (state w)).
      rewrite Ho. f_equal. apply renderCameraView_preview; [apply He|].
      by split.
Qed.

(** ** Acquisition failures *)



(** The same classification applies when [startCamera] throws before it
    reaches [getUserMedia]. *)
Lemma requestCameraAccess_unsupported (fm : FacingMode) (w : World) :
  hasMediaDevices (platform w) = false ->
  let w' := requestCameraAccess fm w in
  error (state w') = msgGeneric ∧ isLoading (state w') = false ∧
  attempts w' = attempts w ∧ pending w' = pending w.
Proof.
  intros H. unfold requestCameraAccess, startCamera. simpl. by rewrite H.
Qed.

(** ** The readiness latch *)

Lemma informCameraReady_latched (w : World) :
  readyCalledRef w = true -> informCameraReady w = w.
Proof. intros H. unfold informCameraReady. by rewrite H. Qed.

Lemma informCameraReady_first (w : World) :
  readyCalledRef w = false ->
  let w' := informCameraReady w in
  readiness w' = true ∧ isLoading (state w') = false ∧
  readyCalledRef w' = true.
Proof. intros H. unfold informCameraReady. by rewrite H. Qed.

Lemma informCameraReady_idempotent (w : World) :
  informCameraReady (informCameraReady w) = informCameraReady w.
Proof.
  destruct (readyCalledRef w) eqn:H.
  - by rewrite !(informCameraReady_latched w H).
  - apply informCameraReady_latched.
    by destruct (informCameraReady_first w H) as (_ & _ & ?).
Qed.

Lemma commit_readiness (w : World) : readiness (commit w) = readiness w.
Proof. unfold readiness. by rewrite commit_state. Qed.

Lemma commit_readyCalledRef (w : World) :
  readyCalledRef (commit w) = readyCalledRef w.
Proof.
  unfold commit, detach. by destruct (liveRendered w), (videoRef w).
Qed.

(** While no callback reopens it, a closed latch stays closed and the flag
    does not rise. *)
Lemma step_latched (w : World) (e : Event) :
  reopensLatch e = false ->
  readyCalledRef w = true ->
  readyCalledRef (step w e) = true ∧
  (readiness (step w e) = true -> readiness w = true).
Proof.
  intros Ha Hl. unfold step. destruct (enabled w e); [|done].
  rewrite commit_readyCalledRef, commit_readiness. unfold readiness.
  destruct e; try discriminate Ha; cbn [handle];
    unfold informCameraReady; crush_world w.
Qed.

(** A callback that raises the flag closes the latch. *)
Lemma step_rise_latches (w : World) (e : Event) :
  reopensLatch e = false ->
  readiness w = false ->
  readiness (step w e) = true ->
  readyCalledRef (step w e) = true.
Proof.
  intros Ha. unfold step. destruct (enabled w e); [|congruence].
  rewrite commit_readyCalledRef, commit_readiness. unfold readiness.
  destruct e; try discriminate Ha; cbn [handle];
    unfold informCameraReady; crush_world w; congruence.
Qed.

Lemma passes_head (w : World) (es : list Event) :
  ∃ l, passes w es = w :: l.
Proof. destruct es; by eexists. Qed.

Lemma rises_cons (a : bool) (w : World) (es : list Event) :
  rises (a :: (readiness <$> passes w es)) =
  (if negb a && readiness w then 1 else 0) + rises (readiness <$> passes w es).
Proof. destruct (passes_head w es) as [l ->]. done. Qed.

Lemma rises_latched (es : list Event) (w : World) :
  Forall (λ e, reopensLatch e = false) es ->
  readyCalledRef w = true ->
  rises (readiness <$> passes w es) = 0.
Proof.
  revert w. induction es as [|e es IH]; intros w Hes Hl; [done|].
  inversion Hes as [|? ? He Hes']; subst.
  destruct (step_latched w e He Hl) as [Hl' Hm].
  cbn [passes fmap list_fmap]. rewrite rises_cons, (IH _ Hes' Hl').
  destruct (readiness w) eqn:Hr; [done|].
  destruct (readiness (step w e)) eqn:Hr'; [|done].
  by specialize (Hm eq_refl).
Qed.

(** From any world on, the flag rises at most once as long as no callback
    reopens the latch. *)
Lemma rises_at_most_once (es : list Event) (w : World) :
  Forall (λ e, reopensLatch e = false) es ->
  (rises (readiness <$> passes w es) ≤ 1)%nat.
Proof.
  revert w. induction es as [|e es IH]; intros w Hes; [simpl; lia|].
  inversion Hes as [|? ? He Hes']; subst.
  cbn [passes fmap list_fmap]. rewrite rises_cons.
  destruct (negb (readiness w) && readiness (step w e)) eqn:Hrise.
  - apply andb_true_iff in Hrise as [Hr Hr'].
    apply negb_true_iff in Hr.
    rewrite (rises_latched es _ Hes' (step_rise_latches w e He Hr Hr')). lia.
  - specialize (IH (step w e) Hes'). lia.
Qed.

(** A readiness signal that finds the latch closed changes nothing. *)
Lemma signal_noop (w : World) (e : Event) :
  commit w = w -> readyCalledRef w = true -> isSignal e = true ->
  step w e = w.
Proof.
  intros Hc Hr He. unfold step. destruct (enabled w e); [|done].
  destruct e; try done; cbn [handle];
    by rewrite (informCameraReady_latched w Hr).
Qed.

Lemma signals_noop (w : World) (es : list Event) :
  commit w = w -> readyCalledRef w = true ->
  Forall (λ e, isSignal e = true) es ->
  run w es = w.
Proof.
  intros Hc Hr Hes. induction Hes as [|e es He _ IH]; [done|].
  unfold run in *. simpl. by rewrite (signal_noop w e Hc Hr He).
Qed.

(** The resolution of [getUserMedia] while the video element is mounted. *)
Lemma resolved_on_mounted_video (w : World) (t : nat) (k : Caller)
    (v : HTMLVideoElement) :
  commit w = w ->
  pending w !! t = Some (AwaitGetUserMedia k) ->
  videoRef w = Some v ->
  let s := nextStream (platform w) in
  let w0 := step w (GetUserMediaResolved t) in
  globalStream w0 = Some s ∧ videoRef w0 = Some (arm s v) ∧
  readyCalledRef w0 = false ∧ readiness w0 = false ∧
  isLoading (state w0) = isLoading (state w) ∧
  pending w0 !! nextTask w = Some (AwaitPlay k).
Proof.
  intros Hc Hp Hv.
  pose proof (committed_video w v Hc Hv) as Hl.
  cbv zeta. unfold step. cbn [enabled handle]. rewrite Hp.
  unfold startCamera_resolved.
  change (videoRef (set_globalStream _ (with_platform open_stream
            (set_pending (delete t (pending w)) w)))) with (videoRef w).
  rewrite Hv.
  match goal with |- context [commit ?x] => set (wr := x) end.
  assert (Hlr : liveRendered wr = true).
  { revert Hl. unfold wr, liveRendered, renderModal, renderCameraView.
    destruct_world w. repeat case_match; simpl in *; simplify_eq; done. }
  unfold commit. rewrite Hlr.
  change (videoRef wr) with (Some (arm (nextStream (platform w)) v)).
  cbv iota. unfold wr. simpl.
  repeat split; try done. apply lookup_insert_eq.
Qed.

(** The resolution of [getUserMedia] while no video element is mounted:
    the block under [if (videoRef.current)] is skipped. *)
Lemma resolved_without_video (w : World) (t : nat) (k : Caller) :
  commit w = w ->
  pending w !! t = Some (AwaitGetUserMedia k) ->
  videoRef w = None ->
  let w0 := step w (GetUserMediaResolved t) in
  globalStream w0 = Some (nextStream (platform w)) ∧
  readiness w0 = readiness w ∧ readyCalledRef w0 = readyCalledRef w ∧
  videoRef w0 = None ∧ detached w0 = detached w.
Proof.
  intros Hc Hp Hv. cbv zeta.
  assert (Hl : liveRendered w = false).
  { destruct (liveRendered w) eqn:Hl; [|done].
    unfold commit in Hc. rewrite Hl, Hv in Hc.
    rewrite <- Hc in Hv. done. }
  unfold step. cbn [enabled handle]. rewrite Hp.
  unfold startCamera_resolved.
  change (videoRef (set_globalStream _ (with_platform open_stream
            (set_pending (delete t (pending w)) w)))) with (videoRef w).
  rewrite Hv.
  set (x := startCamera_returned k _).
  assert (Hx : globalStream x = Some (nextStream (platform w)) ∧
               readiness x = readiness w ∧
               readyCalledRef x = readyCalledRef w ∧ videoRef x = None ∧
               detached x = detached w ∧ liveRendered x = false).
  { revert Hl. unfold x, readiness, liveRendered, renderModal,
      renderCameraView.
    destruct k; destruct_world w; subst; intros Hl;
      (do 5 (split; [done|])); revert Hl;
      repeat case_match; simpl in *; simplify_eq; done. }
  destruct Hx as (Hg & Hr & Hrc & Hvx & Hd & Hlx).
  rewrite commit_globalStream, commit_readiness, commit_readyCalledRef.
  unfold commit, detach. rewrite Hlx, Hvx. done.
Qed.

(** C2, as stated, fails twice.  A new acquisition does not always reset
    the latch: when its promise resolves while the preview is on screen,
    the new stream is stored with the flag and [readyCalledRef] still
    true.  And one stream can raise the flag twice: [stopCamera] reopens
    the latch on close while the listeners stay on the video element that
    left the page, so a signal of that element that runs after the close
    click raises the flag again, with the modal closed. *)
Lemma readiness_latch_fails_as_stated :
  (globalStream (run sampleWorld resolvedUnderPreview) = Some 1 ∧
   readiness (run sampleWorld resolvedUnderPreview) = true ∧
   readyCalledRef (run sampleWorld resolvedUnderPreview) = true) ∧
  (nextStream (platform (run sampleWorld signalAfterClose)) = 1 ∧
   rises (readiness <$> passes sampleWorld signalAfterClose) = 2 ∧
   isOpen (state (run sampleWorld signalAfterClose)) = false ∧
   readiness (run sampleWorld signalAfterClose) = true).
Proof. by vm_compute. Qed.

(** C2, amended.  When an acquisition resolves while the video element is
    mounted, the readiness flag and its latch are reset to false and both
    listeners are set; the first readiness signal, whichever it is, sets
    the flag, closes the latch and clears the loading flag; every further
    signal leaves the world as it is.  When no video element is mounted
    the resolution resets nothing and sets no listener.  From any world
    on, the flag goes from false to true at most once as long as no
    callback reopens the latch, which only the resolution of an
    acquisition and the close and confirm clicks do. *)
Theorem readiness_latch (w : World) (t : nat) (k : Caller) :
  commit w = w ->
  pending w !! t = Some (AwaitGetUserMedia k) ->
  let w0 := step w (GetUserMediaResolved t) in
  (∀ v, videoRef w = Some v ->
     (readiness w0 = false ∧ readyCalledRef w0 = false ∧
      enabled w0 VideoPlaying = true ∧ enabled w0 VideoCanPlay = true) ∧
     (∀ e, isSignal e = true ->
        readiness (step w0 e) = true ∧
        isLoading (state (step w0 e)) = false ∧
        readyCalledRef (step w0 e) = true) ∧
     (∀ e es, isSignal e = true -> Forall (λ e', isSignal e' = true) es ->
        run w0 (e :: es) = step w0 e)) ∧
  (videoRef w = None ->
     readiness w0 = readiness w ∧ readyCalledRef w0 = readyCalledRef w ∧
     videoRef w0 = None ∧ detached w0 = detached w) ∧
  (∀ w' es, Forall (λ e, reopensLatch e = false) es ->
     (rises (readiness <$> passes w' es) ≤ 1)%nat).
Proof.
  intros Hc Hp. cbv zeta. split; [|split].
  - intros v Hv.
    pose proof (resolved_on_mounted_video w t k v Hc Hp Hv) as H.
    cbv zeta in H. destruct H as (_ & Hv0 & Hr0 & Hf0 & _).
    set (w0 := step w (GetUserMediaResolved t)) in *.
    assert (Hc0 : commit w0 = w0) by by apply step_committed.
    assert (He0 : ∀ e, isSignal e = true -> enabled w0 e = true).
    { intros e He. destruct e; try done; simpl; by rewrite Hv0. }
    assert (Hfirst : ∀ e, isSignal e = true ->
      step w0 e = commit (informCameraReady w0)).
    { intros e He. unfold step. rewrite (He0 e He). by destruct e. }
    destruct (informCameraReady_first w0 Hr0) as (Hi1 & Hi2 & Hi3).
    split; [|split].
    + split; [done|]. split; [done|]. split; by apply He0.
    + intros e He. rewrite (Hfirst e He).
      unfold readiness. rewrite commit_state, commit_readyCalledRef. done.
    + intros e es He Hes. unfold run. simpl.
      apply (signals_noop (step w0 e) es); [by apply step_committed| |done].
      by rewrite (Hfirst e He), commit_readyCalledRef.
  - intros Hv.
    pose proof (resolved_without_video w t k Hc Hp Hv) as H.
    cbv zeta in H. by destruct H as (_ & ? & ? & ? & ?).
  - intros w' es Hes. by apply rises_at_most_once.
Qed.

(** ** Permission and acquisition *)

Lemma deniedWorld_denied :
  permission (state deniedWorld) = denied ∧ mounted deniedWorld = true ∧
  hasMediaDevices (platform deniedWorld) = true.
Proof. by vm_compute. Qed.

(** C8, as stated, fails: with the permission [denied] a click on the
    trigger opens the modal and calls [getUserMedia] not at all. *)
Lemma open_attempts_for_every_permission_fails :
  ¬ (∀ w : World,
       mounted w = true -> hasMediaDevices (platform w) = true ->
       attempts (step w TriggerClick) = S (attempts w)).
Proof.
  intros H. specialize (H deniedWorld eq_refl eq_refl).
  vm_compute in H. discriminate.
Qed.

(** C8, amended.  [handleOpen] attempts the acquisition exactly when the
    tracked permission is [granted] or [prompt]: it then opens the modal,
    clears the captured frame and the error, raises the loading flag,
    lowers the readiness flag, stops the global stream and calls
    [getUserMedia] once, with the constraints of the current facing mode;
    on a platform without [getUserMedia] the attempt fails before any call
    and is classified at once as the generic failure.  When the permission
    is [denied], [handleOpen] only opens the modal and clears the captured
    frame and the error: no stream is requested and nothing else
    changes.  Apart from the platform without [getUserMedia], no error is
    set by the call itself: a failure is classified when the promise is
    rejected. *)
Theorem open_attempts_unless_denied (w : World) :
  let w' := handleOpen w in
  (permission (state w) = denied ->
     w' = setError "" (setCapturedImage None (setIsOpen true w)) ∧
     state w' =
       {| isOpen := true; capturedImage := None; error := "";
          permission := denied; isLoading := isLoading (state w);
          facingMode := facingMode (state w);
          isCameraReady := isCameraReady (state w) |} ∧
     platform w' = platform w ∧ pending w' = pending w ∧
     globalStream w' = globalStream w ∧
     readyCalledRef w' = readyCalledRef w) ∧
  (permission (state w) ≠ denied ->
   hasMediaDevices (platform w) = true ->
     state w' =
       {| isOpen := true; capturedImage := None; error := "";
          permission := permission (state w); isLoading := true;
          facingMode := facingMode (state w); isCameraReady := false |} ∧
     gumCalls (platform w') =
       (gumCalls (platform w) ++
          [constraintsFor (facingMode (state w))])%list ∧
     pending w' =
       <[nextTask w := AwaitGetUserMedia ByRequest]> (pending w) ∧
     globalStream w' = None ∧
     live (platform w') =
       live (platform w) ∖ from_option singleton ∅ (globalStream w) ∧
     readyCalledRef w' = readyCalledRef w) ∧
  (permission (state w) ≠ denied ->
   hasMediaDevices (platform w) = false ->
     state w' =
       {| isOpen := true; capturedImage := None;
          error := "Failed to access camera. Please try again.";
          permission := permission (state w); isLoading := false;
          facingMode := facingMode (state w); isCameraReady := false |} ∧
     platform w' = platform w ∧ pending w' = pending w ∧
     globalStream w' = globalStream w ∧
     readyCalledRef w' = readyCalledRef w).
Proof.
  cbv zeta.
  unfold handleOpen, requestCameraAccess, startCamera,
    stopExistingCameraStreams.
  destruct_world w.
  split; [|split].
  - by intros ->.
  - intros Hp Hs. rewrite Hs. simpl.
    destruct permission0, globalStream0; simpl; try done;
      (do 4 (split; [done|])); (split; [set_solver | done]).
  - intros Hp Hs. rewrite Hs. simpl. by destruct permission0.
Qed.

(** ** Switching the camera *)

(** With a stream open, [switchCamera] toggles the facing mode and requests
    a stream for the new mode; its continuation keeps the mode it left. *)
Lemma switchCamera_suspends (w : World) (s : MediaStream) :
  globalStream w = Some s ->
  hasMediaDevices (platform w) = true ->
  let w' := switchCamera w in
  facingMode (state w') = toggle (facingMode (state w)) ∧
  gumCalls (platform w') =
    (gumCalls (platform w) ++
       [constraintsFor (toggle (facingMode (state w)))])%list ∧
  pending w' !! nextTask w =
    Some (AwaitGetUserMedia (BySwitch (facingMode (state w)))) ∧
  s ∉ live (platform w').
Proof.
  intros Hg Hs. cbv zeta.
  unfold switchCamera, startCamera, stopExistingCameraStreams.
  destruct_world w. rewrite Hg, Hs. simpl.
  repeat split; try done; [apply lookup_insert_eq | set_solver].
Qed.

(** C7.  When the acquisition requested by [switchCamera] is rejected, the
    facing mode is set back to the one the handler started from and
    [getUserMedia] is called again with the constraints of that mode.  The
    message ["Failed to switch camera. Using default camera."] is set and,
    in the same callback, cleared by [requestCameraAccess]: the world
    rendered after the callback has an empty error. *)
Theorem switch_failure_message_is_overwritten (w : World) (t : nat)
    (prior : FacingMode) (name : string) :
  pending w !! t = Some (AwaitGetUserMedia (BySwitch prior)) ->
  hasMediaDevices (platform w) = true ->
  let w' := step w (GetUserMediaRejected t name) in
  facingMode (state w') = prior ∧
  gumCalls (platform w') =
    (gumCalls (platform w) ++ [constraintsFor prior])%list ∧
  pending w' !! nextTask w = Some (AwaitGetUserMedia ByRequest) ∧
  error (state w') = "" ∧
  error (state w') ≠ "Failed to switch camera. Using default camera.".
Proof.
  intros Hp Hs. cbv zeta. unfold step. cbn [enabled handle]. rewrite Hp.
  rewrite commit_state, commit_platform, commit_pending.
  unfold startCamera_rejected, switchCamera_catch, requestCameraAccess,
    startCamera, stopExistingCameraStreams.
  destruct_world w. rewrite Hs. simpl.
  destruct globalStream0; simpl;
    repeat split; try done; apply lookup_insert_eq.
Qed.

(** No callback leaves the switch failure message in the state that is
    rendered. *)
Lemma switch_message_never_rendered (w : World) (e : Event) :
  error (state w) ≠ msgSwitch -> error (state (step w e)) ≠ msgSwitch.
Proof.
  intros H. unfold step. destruct (enabled w e); [|done].
  rewrite commit_state.
  destruct e; cbn [handle]; unfold startCamera_resolved, informCameraReady;
    crush_world w.
Qed.

(** X18.  In no world the component reaches is the error state the switch
    failure message ["Failed to switch camera. Using default camera."]:
    the only callback that sets it clears it before it returns. *)
Theorem switch_message_never_reached (p : Platform)
    (img : option HTMLImageElement) (es : list Event) :
  error (state (run (initial p img) es)) ≠ msgSwitch.
Proof.
  assert (G : ∀ w, error (state w) ≠ msgSwitch ->
                   error (state (run w es)) ≠ msgSwitch).
  { induction es as [|e es IH]; intros w H; [done|].
    apply IH. by apply switch_message_never_rendered. }
  by apply G.
Qed.

(** ** The global stream slot *)

(** C1 fails when acquisitions overlap.  The trigger is clicked, the modal
    is closed and the trigger is clicked again while the first
    [getUserMedia] is still in flight; both promises then resolve.  Each
    resolution stores its stream in [globalStream] without stopping the
    one stored before: two streams are live, and one of them is still live
    after the modal is closed and after the component is unmounted. *)
Theorem overlapping_acquisitions_leak_a_stream :
  alive <$> passes sampleWorld (overlappingOpens ++ [CloseClick; Unmount]) =
    [0; 0; 0; 0; 1; 2; 1; 1] ∧
  alive (run sampleWorld overlappingOpens) = 2 ∧
  globalStream (run sampleWorld overlappingOpens) = Some 1 ∧
  elements (live (platform (run sampleWorld overlappingOpens))) = [1; 0] ∧
  alive (run sampleWorld (overlappingOpens ++ [CloseClick])) = 1 ∧
  alive (run sampleWorld (overlappingOpens ++ [Unmount])) = 1.
Proof. by vm_compute. Qed.

Lemma handleOpen_footprint (w : World) :
  keeps w (handleOpen w) ∨ releases w (handleOpen w) ∨ requests w (handleOpen w).
Proof. crush_world w; pick_footprint. Qed.

Lemma requestCameraAccess_footprint (fm : FacingMode) (w : World) :
  keeps w (requestCameraAccess fm w) ∨ releases w (requestCameraAccess fm w) ∨
  requests w (requestCameraAccess fm w).
Proof. crush_world w; pick_footprint. Qed.

Lemma switchCamera_footprint (w : World) :
  keeps w (switchCamera w) ∨ releases w (switchCamera w) ∨
  requests w (switchCamera w).
Proof. crush_world w; pick_footprint. Qed.

Lemma handleClose_footprint (w : World) : releases w (handleClose w).
Proof. crush_world w; unfold releases; simpl; repeat split; set_solver. Qed.

Lemma confirmPhoto_footprint (w : World) :
  keeps w (confirmPhoto w) ∨ releases w (confirmPhoto w) ∨
  requests w (confirmPhoto w).
Proof. crush_world w; pick_footprint. Qed.

Lemma capturePhoto_footprint (w : World) : keeps w (capturePhoto w).
Proof. crush_world w. Qed.

Lemma startCamera_rejected_footprint (name : string) (k : Caller) (w : World) :
  keeps w (startCamera_rejected name k w) ∨
  releases w (startCamera_rejected name k w) ∨
  requests w (startCamera_rejected name k w).
Proof. crush_world w; pick_footprint. Qed.

Lemma startCamera_played_footprint (ok : bool) (k : Caller) (w : World) :
  keeps w (startCamera_played ok k w).
Proof. crush_world w. Qed.

Lemma singleSlot_keeps (w w' : World) :
  keeps w w' -> singleSlot w -> singleSlot w'.
Proof.
  intros (Hl & Hg & Hp) (I1 & I2 & I3). unfold singleSlot, acquiring.
  rewrite Hl, Hg, Hp. done.
Qed.

Lemma singleSlot_releases (w w' : World) :
  releases w w' -> singleSlot w -> singleSlot w'.
Proof.
  intros (Hl & Hg & Hp) (I1 & I2 & I3). unfold singleSlot, acquiring.
  rewrite Hl, Hg, Hp. split; [set_solver|]. done.
Qed.

Lemma singleSlot_requests (w w' : World) :
  requests w w' -> ¬ acquiring w -> singleSlot w -> singleSlot w'.
Proof.
  intros (Hl & Hg & k & Hp) Hn (I1 & I2 & I3). unfold singleSlot, acquiring.
  rewrite Hl, Hg, Hp. split; [set_solver|]. split; [|done].
  intros t1 t2 k1 k2 H1 H2.
  apply lookup_insert_Some in H1 as [[<- _]|[_ H1]];
    apply lookup_insert_Some in H2 as [[<- _]|[_ H2]]; try done.
  - destruct Hn. by exists t2, k2.
  - destruct Hn. by exists t1, k1.
  - destruct Hn. by exists t1, k1.
Qed.

Lemma singleSlot_footprint (w w' : World) :
  keeps w w' ∨ releases w w' ∨ requests w w' ->
  ¬ acquiring w -> singleSlot w -> singleSlot w'.
Proof.
  intros [H|[H|H]] Hn Hs.
  - by apply (singleSlot_keeps w).
  - by apply (singleSlot_releases w).
  - by apply (singleSlot_requests w).
Qed.

Lemma singleSlot_commit (w : World) : singleSlot w -> singleSlot (commit w).
Proof.
  unfold singleSlot, acquiring.
  by rewrite commit_platform, commit_globalStream, commit_pending.
Qed.

(** Taking the settled promise out of the promises in flight. *)
Lemma singleSlot_settled (w : World) (t : nat) (k : Caller) :
  pending w !! t = Some (AwaitGetUserMedia k) ->
  singleSlot w ->
  let w1 := set_pending (delete t (pending w)) w in
  singleSlot w1 ∧ ¬ acquiring w1 ∧ globalStream w1 = None ∧
  live (platform w1) = ∅.
Proof.
  intros Hp (I1 & I2 & I3). cbv zeta.
  assert (Hg : globalStream w = None) by (apply I3; by exists t, k).
  assert (Hn : ¬ acquiring (set_pending (delete t (pending w)) w)).
  { intros (t' & k' & H). simpl in H.
    apply lookup_delete_Some in H as [Hne H].
    by specialize (I2 _ _ _ _ Hp H). }
  split; [|split; [done|split; [done|]]].
  - split; [done|]. split; [|done].
    intros t1 t2 k1 k2 H1 H2. simpl in H1, H2.
    apply lookup_delete_Some in H1 as [_ H1].
    apply lookup_delete_Some in H2 as [_ H2]. by eapply I2.
  - simpl. rewrite Hg in I1. simpl in I1. set_solver.
Qed.

Lemma singleSlot_played (w : World) (t : nat) :
  singleSlot w -> singleSlot (set_pending (delete t (pending w)) w).
Proof.
  intros (I1 & I2 & I3). split; [done|]. split.
  - intros t1 t2 k1 k2 H1 H2. simpl in H1, H2.
    apply lookup_delete_Some in H1 as [_ H1].
    apply lookup_delete_Some in H2 as [_ H2]. by eapply I2.
  - intros (t' & k' & H). simpl in H.
    apply lookup_delete_Some in H as [_ H]. apply I3. by exists t', k'.
Qed.

Lemma startCamera_resolved_singleSlot (k : Caller) (w : World) :
  ¬ acquiring w -> live (platform w) = ∅ ->
  singleSlot (startCamera_resolved k w).
Proof.
  intros Hn Hl. unfold startCamera_resolved, startCamera_returned.
  assert (Hq : ∀ w', pending w' = pending w ∨
                     pending w' = <[nextTask w := AwaitPlay k]> (pending w) ->
                     ¬ acquiring w').
  { intros w' [Hp|Hp] (t' & k' & H); rewrite Hp in H.
    - destruct Hn. by exists t', k'.
    - apply lookup_insert_Some in H as [[_ ?]|[_ H]]; [done|].
      destruct Hn. by exists t', k'. }
  destruct_world w. subst.
  destruct videoRef0; [|destruct k]; simpl.
  all: split; [simpl; set_solver|]; split;
    [intros t1 ? k1 ? H1 _; exfalso | intros H; exfalso];
    match goal with
    | H : acquiring ?x |- _ => revert H; apply (Hq x); simpl; auto
    | H : pending ?x !! _ = _ |- _ =>
        apply (Hq x); [simpl; auto | by exists t1, k1]
    end.
Qed.

(** A callback that runs in turn keeps the single slot discipline. *)
Lemma step_singleSlot (w : World) (e : Event) :
  singleSlot w -> inTurn w e -> singleSlot (step w e).
Proof.
  intros Hs Ht. unfold step. destruct (enabled w e) eqn:He; [|done].
  apply singleSlot_commit. unfold inTurn in Ht.
  destruct e; cbn [handle usesCamera] in *.
  - apply (singleSlot_footprint w); auto using handleOpen_footprint.
  - apply (singleSlot_releases w); auto using handleClose_footprint.
  - apply (singleSlot_footprint w); auto using requestCameraAccess_footprint.
  - apply (singleSlot_footprint w); auto using switchCamera_footprint.
  - apply (singleSlot_keeps w); auto using capturePhoto_footprint.
  - by apply (singleSlot_keeps w).
  - apply (singleSlot_footprint w); auto using confirmPhoto_footprint.
  - apply (singleSlot_releases w); [|done].
    unfold releases, stopExistingCameraStreams.
    destruct (globalStream w) eqn:Hg; simpl; rewrite ?Hg; simpl;
      repeat split; set_solver.
  - destruct (pending w !! task) as [[k|k]|] eqn:Hp; try done.
    destruct (singleSlot_settled w task k Hp Hs) as (_ & Hn & _ & Hl).
    by apply startCamera_resolved_singleSlot.
  - destruct (pending w !! task) as [[k|k]|] eqn:Hp; try done.
    destruct (singleSlot_settled w task k Hp Hs) as (Hs1 & Hn & _).
    eapply singleSlot_footprint; [apply startCamera_rejected_footprint|done..].
  - destruct (pending w !! task) as [[k|k]|] eqn:Hp; try done.
    eapply singleSlot_keeps; [apply startCamera_played_footprint|].
    by apply singleSlot_played.
  - apply (singleSlot_keeps w); [|done]. unfold informCameraReady.
    by destruct (readyCalledRef w).
  - apply (singleSlot_keeps w); [|done]. unfold informCameraReady.
    by destruct (readyCalledRef w).
  - by apply (singleSlot_keeps w).
  - by apply (singleSlot_keeps w).
Qed.

Lemma singleSlot_alive (w : World) : singleSlot w -> (alive w ≤ 1)%nat.
Proof.
  intros (I1 & _). unfold alive.
  destruct (globalStream w) as [g|]; simpl in I1; apply subseteq_size in I1.
  - rewrite (size_singleton g) in I1. lia.
  - rewrite size_empty in I1. lia.
Qed.

Lemma singleSlot_initial (p : Platform) (img : option HTMLImageElement) :
  live p = ∅ -> singleSlot (initial p img).
Proof.
  intros Hl. split; [simpl; by rewrite Hl|]. split.
  - intros t1 t2 k1 k2 H. simpl in H. by rewrite lookup_empty in H.
  - intros (t & k & H). simpl in H. by rewrite lookup_empty in H.
Qed.

(** What holds of C1: as long as no callback uses the camera while an
    acquisition is in flight, at most one stream is live in every world
    passed through. *)
Lemma in_turn_at_most_one_stream (es : list Event) (w : World) :
  singleSlot w -> allInTurn w es ->
  Forall (λ w', (alive w' ≤ 1)%nat) (passes w es).
Proof.
  revert w. induction es as [|e es IH]; intros w Hs Ht; simpl.
  - constructor; [by apply singleSlot_alive | constructor].
  - destruct Ht as [Ht Hts]. constructor; [by apply singleSlot_alive|].
    apply IH; [by apply step_singleSlot | done].
Qed.

(** Under the single slot discipline, closing the modal or unmounting the
    component leaves no stream live. *)
Lemma close_leaves_no_stream (w : World) (e : Event) :
  singleSlot w -> enabled w e = true ->
  e = CloseClick ∨ e = Unmount ->
  alive (step w e) = 0 ∧ globalStream (step w e) = None.
Proof.
  intros (I1 & _) He Hc. unfold step, alive. rewrite He.
  rewrite commit_platform, commit_globalStream.
  assert (E : live (platform (handle e w)) =
              live (platform w) ∖ from_option singleton ∅ (globalStream w)
              ∧ globalStream (handle e w) = None).
  { destruct Hc as [-> | ->]; cbn [handle].
    - by destruct (handleClose_closed w) as (_ & _ & _ & _ & _ & _ & ? & ? & _).
    - split; [|done]. simpl. apply stopExistingCameraStreams_live. }
  destruct E as [-> ->]. split; [|done].
  apply size_empty_iff. set_solver.
Qed.

(** * The theorems at sample worlds *)

Lemma view_selector_priority_witness :
  isOpen (state previewWorld) = true ∧
  rendered PreviewKind (state previewWorld) ∧
  ¬ rendered LiveKind (state previewWorld).
Proof.
  assert (Ho : isOpen (state previewWorld) = true) by (vm_compute; reflexivity).
  destruct (view_selector_priority (state previewWorld) Ho)
    as (_ & _ & Hp & Hl & _).
  split; [exact Ho|]. split.
  - apply Hp. vm_compute. split; reflexivity.
  - intros H. apply Hl in H as [_ H]. vm_compute in H. discriminate.
Defined.

Lemma confirm_hands_over_frame_witness :
  hasFrame (state previewWorld) "data:image/jpeg;base64,/9j/4AAQ" ∧
  imageRef previewWorld = Some {| src := "" |} ∧
  imageRef (confirmPhoto previewWorld) =
    Some {| src := "data:image/jpeg;base64,/9j/4AAQ" |} ∧
  isOpen (state (confirmPhoto previewWorld)) = false.
Proof.
  assert (Hf : hasFrame (state previewWorld) "data:image/jpeg;base64,/9j/4AAQ")
    by (split; [vm_compute; reflexivity | discriminate]).
  assert (Hi : imageRef previewWorld = Some {| src := "" |})
    by (vm_compute; reflexivity).
  destruct (confirm_hands_over_frame previewWorld _ _ Hf Hi) as (H1 & H2 & _).
  split; [exact Hf|]. split; [exact Hi|]. split; [exact H1 | exact H2].
Defined.

Lemma confirm_without_frame_or_image_witness :
  (truthy_opt (capturedImage (state readyWorld)) = false ∨
   imageRef readyWorld = None) ∧
  confirmPhoto readyWorld = readyWorld.
Proof.
  assert (H : truthy_opt (capturedImage (state readyWorld)) = false ∨
              imageRef readyWorld = None)
    by (left; vm_compute; reflexivity).
  split; [exact H|].
  exact (proj1 (confirm_without_frame_or_image readyWorld H)).
Defined.

Lemma capture_rejected_witness :
  (isCameraReady (state openingWorld) = false ∨
   (∃ v, videoRef openingWorld = Some v ∧
         videoWidth v = 0%N ∧ videoHeight v = 0%N) ∨
   canvasRef openingWorld = None ∨
   hasContext2d (platform openingWorld) = false) ∧
  capturedImage (state (capturePhoto openingWorld)) = None.
Proof.
  assert (H : isCameraReady (state openingWorld) = false ∨
    (∃ v, videoRef openingWorld = Some v ∧
          videoWidth v = 0%N ∧ videoHeight v = 0%N) ∨
    canvasRef openingWorld = None ∨
    hasContext2d (platform openingWorld) = false)
    by (left; vm_compute; reflexivity).
  split; [exact H|].
  destruct (capture_rejected openingWorld H) as (_ & Hc & _).
  rewrite Hc. vm_compute. reflexivity.
Defined.

Lemma capture_proceeds_witness :
  commit readyWorld = readyWorld ∧
  videoRef readyWorld = Some readyVideo ∧
  canvasRef readyWorld = Some fresh_canvas ∧
  isCameraReady (state readyWorld) = true ∧
  hasContext2d (platform readyWorld) = true ∧
  videoWidth readyVideo ≠ 0%N ∧ videoHeight readyVideo ≠ 0%N ∧
  (videoWidth readyVideo ≤ 2147483647)%N ∧
  (videoHeight readyVideo ≤ 2147483647)%N ∧
  ∃ surface,
    canvasRef (capturePhoto readyWorld) = Some surface ∧
    cv_width surface = 1280%N ∧ cv_height surface = 720%N ∧
    cv_calls surface =
      [Scale (-1) 1; DrawImage readyVideo 0 0 (-1280) 720] ∧
    capturedImage (state (capturePhoto readyWorld)) =
      Some "data:image/jpeg;base64,/9j/4AAQ".
Proof.
  assert (H1 : commit readyWorld = readyWorld) by (vm_compute; reflexivity).
  assert (H2 : videoRef readyWorld = Some readyVideo)
    by (vm_compute; reflexivity).
  assert (H3 : canvasRef readyWorld = Some fresh_canvas)
    by (vm_compute; reflexivity).
  assert (H4 : isCameraReady (state readyWorld) = true)
    by (vm_compute; reflexivity).
  assert (H5 : hasContext2d (platform readyWorld) = true)
    by (vm_compute; reflexivity).
  assert (H6 : videoWidth readyVideo ≠ 0%N) by discriminate.
  assert (H7 : videoHeight readyVideo ≠ 0%N) by discriminate.
  assert (H8 : (videoWidth readyVideo ≤ 2147483647)%N) by (simpl; lia).
  assert (H9 : (videoHeight readyVideo ≤ 2147483647)%N) by (simpl; lia).
  destruct (capture_proceeds readyWorld readyVideo fresh_canvas
              H1 H2 H3 H4 H5 H6 H7 H8 H9)
    as (surface & Hs & Hw & Hh & Hu & _ & _ & Hok).
  split; [exact H1|]. split; [exact H2|]. split; [exact H3|].
  split; [exact H4|]. split; [exact H5|]. split; [exact H6|].
  split; [exact H7|]. split; [exact H8|]. split; [exact H9|].
  exists surface. split; [exact Hs|]. split; [exact Hw|]. split; [exact Hh|].
  split.
  - apply Hu. vm_compute. reflexivity.
  - apply Hok; intros E; vm_compute in E; discriminate E.
Defined.


Lemma readiness_latch_witness :
  commit openingWorld = openingWorld ∧
  pending openingWorld !! 0 = Some (AwaitGetUserMedia ByRequest) ∧
  videoRef openingWorld = Some fresh_video ∧
  readiness (step openingWorld (GetUserMediaResolved 0)) = false ∧
  run (step openingWorld (GetUserMediaResolved 0))
      [VideoCanPlay; VideoPlaying; VideoPlaying] =
    step (step openingWorld (GetUserMediaResolved 0)) VideoCanPlay.
Proof.
  assert (H1 : commit openingWorld = openingWorld) by (vm_compute; reflexivity).
  assert (H2 : pending openingWorld !! 0 = Some (AwaitGetUserMedia ByRequest))
    by (vm_compute; reflexivity).
  assert (H3 : videoRef openingWorld = Some fresh_video)
    by (vm_compute; reflexivity).
  destruct (readiness_latch openingWorld 0 ByRequest H1 H2) as (Hm & _ & _).
  destruct (Hm fresh_video H3) as ((Hr & _) & _ & Hn).
  split; [exact H1|]. split; [exact H2|]. split; [exact H3|].
  split; [exact Hr|].
  apply (Hn VideoCanPlay [VideoPlaying; VideoPlaying]); [reflexivity|].
  repeat constructor.
Defined.

Lemma open_attempts_unless_denied_witness :
  permission (state deniedWorld) = denied ∧
  platform (handleOpen deniedWorld) = platform deniedWorld ∧
  pending (handleOpen deniedWorld) = pending deniedWorld ∧
  permission (state sampleWorld) ≠ denied ∧
  hasMediaDevices (platform sampleWorld) = true ∧
  globalStream (handleOpen sampleWorld) = None.
Proof.
  assert (H : permission (state deniedWorld) = denied)
    by (vm_compute; reflexivity).
  assert (H1 : permission (state sampleWorld) ≠ denied) by discriminate.
  assert (H2 : hasMediaDevices (platform sampleWorld) = true) by reflexivity.
  destruct (open_attempts_unless_denied deniedWorld) as (Hd & _ & _).
  destruct (Hd H) as (_ & _ & Hpl & Hpe & _).
  destruct (open_attempts_unless_denied sampleWorld) as (_ & Hr & _).
  destruct (Hr H1 H2) as (_ & _ & _ & Hg & _).
  split; [exact H|]. split; [exact Hpl|]. split; [exact Hpe|].
  split; [exact H1|]. split; [exact H2 | exact Hg].
Defined.

Lemma switch_failure_message_is_overwritten_witness :
  pending switchingWorld !! 2 = Some (AwaitGetUserMedia (BySwitch user)) ∧
  hasMediaDevices (platform switchingWorld) = true ∧
  facingMode (state switchingWorld) = environment ∧
  facingMode
    (state (step switchingWorld (GetUserMediaRejected 2 "NotReadableError")))
    = user ∧
  error
    (state (step switchingWorld (GetUserMediaRejected 2 "NotReadableError")))
    = "".
Proof.
  assert (H1 : pending switchingWorld !! 2 =
               Some (AwaitGetUserMedia (BySwitch user)))
    by (vm_compute; reflexivity).
  assert (H2 : hasMediaDevices (platform switchingWorld) = true)
    by (vm_compute; reflexivity).
  destruct (switch_failure_message_is_overwritten switchingWorld 2 user
              "NotReadableError" H1 H2) as (Hf & _ & _ & He & _).
  split; [exact H1|]. split; [exact H2|].
  split; [vm_compute; reflexivity|]. split; [exact Hf | exact He].
Defined.

(** * Further properties of the component *)

(** ** Refs and renders *)

Lemma commit_imageRef (w : World) : imageRef (commit w) = imageRef w.
Proof.
  unfold commit, detach. by destruct (liveRendered w), (videoRef w).
Qed.

Lemma commit_mounted (w : World) : mounted (commit w) = mounted w.
Proof.
  unfold commit, detach. by destruct (liveRendered w), (videoRef w).
Qed.

Lemma commit_liveRendered (w : World) :
  liveRendered (commit w) = liveRendered w.
Proof. unfold liveRendered. by rewrite commit_state, commit_mounted. Qed.

Lemma shows_live (w : World) : shows LiveKind w = liveRendered w.
Proof.
  unfold shows, liveRendered. destruct (mounted w); [|done]. simpl.
  destruct (renderModal (state w)) as [[]|]; done.
Qed.

Lemma refsBound_committed (w : World) : refsBound w -> commit w = w.
Proof.
  unfold refsBound, commit. destruct (liveRendered w).
  - intros [[v ->] _]. done.
  - intros [Hv Hc]. destruct w. simpl in *. by subst.
Qed.

(** A commit binds the refs when the handler left them paired. *)
Lemma commit_refsBound (w : World) :
  (videoRef w = None <-> canvasRef w = None) -> refsBound (commit w).
Proof.
  intros Hp. unfold refsBound. rewrite commit_liveRendered.
  unfold commit. destruct (liveRendered w); [|done].
  destruct (videoRef w) as [v|] eqn:Hv.
  - rewrite Hv. split; [done|].
    destruct (canvasRef w) eqn:Hc; [done|].
    destruct Hp as [_ Hp]. by specialize (Hp eq_refl).
  - done.
Qed.

Lemma handle_paired (e : Event) (w : World) :
  (videoRef w = None <-> canvasRef w = None) ->
  (videoRef (handle e w) = None <-> canvasRef (handle e w) = None).
Proof.
  intros Hp. destruct e; cbn [handle];
    unfold startCamera_resolved, informCameraReady;
    crush_world w; try (destruct Hp; split; intros; by auto);
    try (split; intros; done).
  - destruct Hp as [H1 H2]. split; [done|]. intros Hc. by specialize (H2 Hc).
  - destruct videoRef0; simpl; [|done].
    destruct Hp as [H1 H2]. split; [done|]. intros Hc. by specialize (H2 Hc).
Qed.

Lemma refsBound_paired (w : World) :
  refsBound w -> (videoRef w = None <-> canvasRef w = None).
Proof.
  unfold refsBound. destruct (liveRendered w).
  - intros [[v ->] [c ->]]. split; done.
  - intros [-> ->]. done.
Qed.

Lemma step_refsBound (w : World) (e : Event) :
  refsBound w -> refsBound (step w e).
Proof.
  intros H. unfold step. destruct (enabled w e); [|done].
  apply commit_refsBound, handle_paired. by apply refsBound_paired.
Qed.

Lemma initial_refsBound (p : Platform) (img : option HTMLImageElement) :
  refsBound (initial p img).
Proof. done. Qed.

Lemma run_refsBound (es : list Event) (w : World) :
  refsBound w -> refsBound (run w es).
Proof.
  revert w. induction es as [|e es IH]; intros w H; [done|].
  apply IH. by apply step_refsBound.
Qed.

(** ** Capturing, retaking and confirming *)

Lemma capturePhoto_guarded (w : World) (video : HTMLVideoElement)
    (canvas : HTMLCanvasElement) :
  videoRef w = Some video -> canvasRef w = Some canvas ->
  isCameraReady (state w) = true ->
  capturePhoto w =
    if negb (hasContext2d (platform w)) then setError msgNoContext w
    else if (videoWidth video =? 0)%N || (videoHeight video =? 0)%N then
      setError msgNoDimensions w
    else
      let surface := paint (facingMode (state w)) video canvas in
      let url := toDataURL (platform w) surface "image/jpeg" jpegQuality in
      if truthy url && negb (String.eqb url "data:,") then
        setCapturedImage (Some url) (set_canvasRef (Some surface) w)
      else setError msgCaptureFailed (set_canvasRef (Some surface) w).
Proof.
  intros Hv Hc Hr. unfold capturePhoto, paint. rewrite Hv, Hc, Hr.
  by destruct (facingMode (state w)).
Qed.

(** A world that previews a frame has no video element. *)
Lemma preview_world (w : World) (img : string) :
  refsBound w -> mounted w = true -> isOpen (state w) = true ->
  error (state w) = "" -> hasFrame (state w) img ->
  shows PreviewKind w = true ∧ videoRef w = None ∧ canvasRef w = None.
Proof.
  intros Hb Hm Ho He Hf.
  assert (Hr : renderModal (state w) = Some (PreviewView img)).
  { unfold renderModal. rewrite Ho. f_equal.
    by apply renderCameraView_preview. }
  unfold refsBound, liveRendered in Hb. rewrite Hr, andb_false_r in Hb.
  unfold shows. rewrite Hm, Hr. by destruct Hb.
Qed.

(** X1.  Retaking from the preview discards the captured frame and puts the
    live view back on screen; it calls nothing on the platform: the global
    stream, the live streams, the [getUserMedia] calls and the promises in
    flight are as before, and the readiness and loading flags are kept. *)
Theorem retake_returns_to_live (w : World) (img : string) :
  refsBound w -> mounted w = true -> isOpen (state w) = true ->
  error (state w) = "" -> hasFrame (state w) img ->
  let w' := step w RetakeClick in
  capturedImage (state w') = None ∧
  renderModal (state w') =
    Some (LiveView (isLoading (state w) || negb (isCameraReady (state w)))
            (negb (isCameraReady (state w)))
            (negb (isCameraReady (state w)))) ∧
  platform w' = platform w ∧ globalStream w' = globalStream w ∧
  pending w' = pending w ∧
  isCameraReady (state w') = isCameraReady (state w).
Proof.
  intros Hb Hm Ho He Hf. cbv zeta.
  destruct (preview_world w img Hb Hm Ho He Hf) as (Hs & _).
  unfold step. cbn [enabled handle]. rewrite Hs.
  rewrite commit_state, commit_platform, commit_globalStream, commit_pending.
  unfold retakePhoto, renderModal, renderCameraView.
  destruct_world w. subst. done.
Qed.

(** X2.  The live view rendered after a retake holds a new video element:
    no stream is attached to it, no listener is set and it reports no
    intrinsic size, while the stream stays in [globalStream] and the
    readiness flag stays set.  The capture button is enabled, and a click
    on it reports that the video is not ready and stores no frame. *)
Theorem capture_after_retake_finds_no_video (w : World) (img : string) :
  refsBound w -> mounted w = true -> isOpen (state w) = true ->
  error (state w) = "" -> hasFrame (state w) img ->
  isCameraReady (state w) = true ->
  hasContext2d (platform w) = true ->
  let w1 := step w RetakeClick in
  let w2 := step w1 CaptureClick in
  videoRef w1 = Some fresh_video ∧
  globalStream w1 = globalStream w ∧
  enabled w1 CaptureClick = true ∧
  error (state w2) = "Video not ready. Please wait a moment and try again." ∧
  capturedImage (state w2) = None ∧
  renderModal (state w2) =
    Some (ErrorView "Video not ready. Please wait a moment and try again."
            (bool_decide (permission (state w) = denied))).
Proof.
  intros Hb Hm Ho He Hf Hr Hx. cbv zeta.
  destruct (preview_world w img Hb Hm Ho He Hf) as (Hs & Hv & Hc).
  assert (E1 : step w RetakeClick =
    set_canvasRef (Some fresh_canvas)
      (set_videoRef (Some fresh_video) (retakePhoto w))).
  { unfold step. cbn [enabled handle]. rewrite Hs. unfold commit.
    assert (Hl : liveRendered (retakePhoto w) = true).
    { unfold liveRendered, retakePhoto, renderModal, renderCameraView.
      destruct_world w. by subst. }
    rewrite Hl. change (videoRef (retakePhoto w)) with (videoRef w).
    by rewrite Hv. }
  rewrite E1.
  set (w1 := set_canvasRef _ _).
  assert (He1 : enabled w1 CaptureClick = true).
  { unfold w1. cbn [enabled]. rewrite shows_live.
    unfold liveRendered, retakePhoto, renderModal, renderCameraView.
    destruct_world w. by subst. }
  split; [done|]. split; [done|]. split; [exact He1|].
  unfold step. rewrite He1. rewrite commit_state. cbn [handle].
  rewrite (capturePhoto_guarded w1 fresh_video fresh_canvas);
    [|done|done|unfold w1; destruct_world w; by subst].
  change (platform w1) with (platform w). rewrite Hx. cbn.
  destruct_world w. by subst.
Qed.

(** A world in which the capture button can be clicked. *)
Lemma capture_enabled_world (w : World) :
  refsBound w -> enabled w CaptureClick = true ->
  (∃ video canvas, videoRef w = Some video ∧ canvasRef w = Some canvas) ∧
  isCameraReady (state w) = true ∧ mounted w = true ∧
  isOpen (state w) = true ∧ error (state w) = "" ∧
  truthy_opt (capturedImage (state w)) = false.
Proof.
  intros Hb He. cbn [enabled] in He. rewrite shows_live in He.
  apply andb_true_iff in He as [Hl Hr].
  unfold refsBound in Hb. rewrite Hl in Hb.
  destruct Hb as [[video Hv] [canvas Hc]].
  destruct (liveRendered_state w Hl) as (Hm & Ho & Her & Hcap).
  split; [by exists video, canvas|]. done.
Qed.

(** X3.  A click on the enabled capture button never ends silently: either
    a frame is stored and the preview is rendered, or an error message is
    set, the stored frame is left as it was and the error view is
    rendered. *)
Theorem capture_click_never_silent (w : World) :
  refsBound w -> enabled w CaptureClick = true ->
  let w' := step w CaptureClick in
  (∃ url, capturedImage (state w') = Some url ∧
          renderModal (state w') = Some (PreviewView url)) ∨
  (error (state w') ≠ "" ∧
   capturedImage (state w') = capturedImage (state w) ∧
   renderModal (state w') =
     Some (ErrorView (error (state w'))
             (bool_decide (permission (state w) = denied)))).
Proof.
  intros Hb He. cbv zeta.
  destruct (capture_enabled_world w Hb He)
    as ((video & canvas & Hv & Hc) & Hr & Hm & Ho & Her & Hcap).
  unfold step. rewrite He, commit_state. cbn [handle].
  rewrite (capturePhoto_guarded w video canvas Hv Hc Hr).
  assert (Herr : ∀ (m : string) (x : World),
    state x = state w -> m ≠ "" ->
    error (state (setError m x)) ≠ "" ∧
    capturedImage (state (setError m x)) = capturedImage (state w) ∧
    renderModal (state (setError m x)) =
      Some (ErrorView (error (state (setError m x)))
              (bool_decide (permission (state w) = denied)))).
  { intros m x Hx Hne. cbn. rewrite Hx. split; [done|]. split; [done|].
    unfold renderModal. cbn. rewrite Ho. f_equal.
    unfold renderCameraView. cbn.
    by rewrite (proj2 (truthy_true m) Hne). }
  destruct (negb (hasContext2d (platform w))); [right; by apply Herr|].
  destruct ((videoWidth video =? 0)%N || (videoHeight video =? 0)%N);
    [right; by apply Herr|].
  cbv zeta.
  set (url := toDataURL _ _ _ _).
  destruct (truthy url && negb (String.eqb url "data:,")) eqn:Hu;
    [|right; by apply Herr].
  left. exists url. split; [done|].
  apply andb_true_iff in Hu as [Hu _]. apply truthy_true in Hu.
  unfold renderModal. cbn. rewrite Ho. f_equal.
  apply renderCameraView_preview; [exact Her | by split].
Qed.

(** X4.  Capturing a frame and confirming it hands the frame to the caller:
    with the camera ready, a 2D context, a video of non-zero size, a bound
    image and an encoding that is neither empty nor ["data:,"], the two
    clicks leave the encoding of the painted canvas, which has the size
    of the video when that is within 2147483647, in the image's [src],
    the modal closed, the global stream stopped and no frame in the
    state. *)
Theorem capture_then_confirm (w : World) (video : HTMLVideoElement)
    (canvas : HTMLCanvasElement) (i : HTMLImageElement) :
  refsBound w -> enabled w CaptureClick = true ->
  videoRef w = Some video -> canvasRef w = Some canvas ->
  hasContext2d (platform w) = true ->
  videoWidth video ≠ 0%N -> videoHeight video ≠ 0%N ->
  (videoWidth video ≤ 2147483647)%N -> (videoHeight video ≤ 2147483647)%N ->
  imageRef w = Some i ->
  let surface := paint (facingMode (state w)) video canvas in
  let url :=
    toDataURL (platform w) surface "image/jpeg" (QArith_base.Qmake 8 10) in
  url ≠ "" -> url ≠ "data:," ->
  let w' := run w [CaptureClick; ConfirmClick] in
  imageRef w' = Some {| src := url |} ∧
  renderModal (state w') = None ∧
  capturedImage (state w') = None ∧
  globalStream w' = None ∧
  (∀ s, globalStream w = Some s -> s ∉ live (platform w')) ∧
  cv_width surface = videoWidth video ∧
  cv_height surface = videoHeight video.
Proof.
  intros Hb He Hv Hc Hx Hw Hh Hbw Hbh Hi. cbv zeta. intros Hu1 Hu2.
  set (surface := paint (facingMode (state w)) video canvas).
  set (url := toDataURL (platform w) surface "image/jpeg"
                (QArith_base.Qmake 8 10)) in *.
  destruct (capture_enabled_world w Hb He)
    as (_ & Hr & Hm & Ho & Her & Hcap).
  set (wc := setCapturedImage (Some url) (set_canvasRef (Some surface) w)).
  assert (E1 : step w CaptureClick = commit wc).
  { unfold step. rewrite He. cbn [handle]. f_equal.
    rewrite (capturePhoto_guarded w video canvas Hv Hc Hr).
    apply N.eqb_neq in Hw, Hh. rewrite Hx, Hw, Hh. cbn [negb orb]. cbv zeta.
    change jpegQuality with (QArith_base.Qmake 8 10).
    rewrite (proj2 (truthy_true _) Hu1).
    by rewrite (proj2 (String.eqb_neq _ _) Hu2). }
  assert (Hs1 : state (commit wc) = state wc) by apply commit_state.
  assert (Hprev : renderModal (state wc) = Some (PreviewView url)).
  { unfold renderModal. change (isOpen (state wc)) with (isOpen (state w)).
    rewrite Ho. f_equal. by apply renderCameraView_preview. }
  assert (E2 : step (commit wc) ConfirmClick =
    commit (handleClose (set_imageRef (Some {| src := url |}) (commit wc)))).
  { unfold step. cbn [enabled]. unfold shows.
    rewrite commit_mounted, Hs1, Hprev.
    change (mounted wc) with (mounted w). rewrite Hm. cbn [andb kind].
    rewrite bool_decide_eq_true_2 by done. cbn [handle].
    unfold confirmPhoto. rewrite Hs1, commit_imageRef.
    change (capturedImage (state wc)) with (Some url).
    change (imageRef wc) with (imageRef w). rewrite Hi.
    by rewrite (proj2 (truthy_true url) Hu1). }
  unfold run. cbn [foldl]. rewrite E1, E2.
  rewrite commit_imageRef, commit_state, commit_globalStream, commit_platform.
  pose proof (handleClose_closed
                (set_imageRef (Some {| src := url |}) (commit wc))) as Hcl.
  cbv zeta in Hcl.
  destruct Hcl as (Hop & Hcap' & _ & _ & _ & _ & Hg & Hlive & Him).
  split; [exact Him|]. split; [unfold renderModal; by rewrite Hop|].
  split; [exact Hcap'|]. split; [exact Hg|]. split.
  - intros s Hs. rewrite Hlive.
    change (globalStream (set_imageRef (Some {| src := url |}) (commit wc)))
      with (globalStream (commit wc)).
    rewrite commit_globalStream.
    change (globalStream wc) with (globalStream w). rewrite Hs. set_solver.
  - unfold surface, paint, set_canvas_height, set_canvas_width, reflected,
      maxReflected.
    apply N.leb_le in Hbw, Hbh. rewrite Hbw, Hbh.
    by destruct (facingMode (state w)).
Qed.

(** ** Opening, retrying and failing *)

Lemma commit_kept (w : World) (v : HTMLVideoElement) :
  liveRendered w = true -> videoRef w = Some v -> commit w = w.
Proof. intros Hl Hv. unfold commit. by rewrite Hl, Hv. Qed.

Lemma commit_video (w : World) :
  liveRendered w = true -> ∃ v, videoRef (commit w) = Some v.
Proof.
  intros Hl. unfold commit. rewrite Hl.
  destruct (videoRef w) as [v|] eqn:Hv; [by exists v | by eexists].
Qed.

Lemma commit_unrendered (w : World) :
  liveRendered w = false ->
  videoRef (commit w) = None ∧ canvasRef (commit w) = None.
Proof. intros Hl. unfold commit. by rewrite Hl. Qed.

(** The world in which [getUserMedia] resolves on a mounted video. *)
Lemma resolved_world (w : World) (t : nat) (k : Caller)
    (v : HTMLVideoElement) :
  liveRendered w = true ->
  pending w !! t = Some (AwaitGetUserMedia k) ->
  videoRef w = Some v ->
  step w (GetUserMediaResolved t) =
    suspend (AwaitPlay k)
      (set_videoRef (Some (arm (nextStream (platform w)) v))
         (setIsCameraReady false
            (set_readyCalledRef false
               (set_globalStream (Some (nextStream (platform w)))
                  (with_platform open_stream
                     (set_pending (delete t (pending w)) w)))))).
Proof.
  intros Hl Hp Hv. unfold step. cbn [enabled handle]. rewrite Hp.
  unfold startCamera_resolved.
  change (videoRef (set_globalStream _ (with_platform open_stream
            (set_pending (delete t (pending w)) w)))) with (videoRef w).
  rewrite Hv.
  apply (commit_kept _ (arm (nextStream (platform w)) v)); [|done].
  revert Hl. unfold liveRendered, renderModal, renderCameraView.
  destruct_world w. repeat case_match; simpl in *; simplify_eq; done.
Qed.

(** What [handleOpen] leaves when it requests a stream. *)
Lemma handleOpen_requested (w : World) :
  hasMediaDevices (platform w) = true ->
  permission (state w) ≠ denied ->
  let h := handleOpen w in
  state h =
    {| isOpen := true; capturedImage := None; error := "";
       permission := permission (state w); isLoading := true;
       facingMode := facingMode (state w); isCameraReady := false |} ∧
  pending h = <[nextTask w := AwaitGetUserMedia ByRequest]> (pending w) ∧
  nextTask h = S (nextTask w) ∧
  nextStream (platform h) = nextStream (platform w) ∧
  hasMediaDevices (platform h) = true ∧
  gumCalls (platform h) =
    (gumCalls (platform w) ++ [constraintsFor (facingMode (state w))])%list ∧
  globalStream h = None ∧
  mounted h = mounted w ∧ readyCalledRef h = readyCalledRef w.
Proof.
  intros Hs Hp. cbv zeta.
  unfold handleOpen, requestCameraAccess, startCamera,
    stopExistingCameraStreams.
  destruct_world w. rewrite Hs. simpl.
  destruct permission0, globalStream0; simpl; done.
Qed.

(** X5.  Opening with a permission other than [denied] on a platform with
    media devices: the click renders the live view under the loading
    overlay with both buttons disabled; the resolution of [getUserMedia]
    puts the new stream, live, in [globalStream]; once [play()] has
    settled, fulfilled or rejected, the permission is [granted] and the
    overlay is still shown; the first readiness signal removes the overlay
    and enables the capture and the switch button. *)
Theorem open_until_ready (w : World) (ok : bool) (e : Event) :
  mounted w = true ->
  hasMediaDevices (platform w) = true ->
  permission (state w) ≠ denied ->
  isSignal e = true ->
  let t := nextTask w in
  let s := nextStream (platform w) in
  let w1 := step w TriggerClick in
  let w2 := step w1 (GetUserMediaResolved t) in
  let w3 := step w2 (PlaySettled (S t) ok) in
  let w4 := step w3 e in
  renderModal (state w1) = Some (LiveView true true true) ∧
  globalStream w2 = Some s ∧ s ∈ live (platform w2) ∧
  renderModal (state w2) = Some (LiveView true true true) ∧
  permission (state w3) = granted ∧
  renderModal (state w3) = Some (LiveView true true true) ∧
  renderModal (state w4) = Some (LiveView false false false) ∧
  enabled w4 CaptureClick = true ∧ enabled w4 SwitchCameraClick = true.
Proof.
  intros Hm Hs Hp He. cbv zeta.
  pose proof (handleOpen_requested w Hs Hp) as Hh. cbv zeta in Hh.
  destruct Hh as (Hst & Hpe & Hnt & Hns & _ & _ & _ & Hmo & _).
  set (h := handleOpen w) in *.
  assert (Hlh : liveRendered h = true).
  { unfold liveRendered. by rewrite Hmo, Hm, Hst. }
  assert (E1 : step w TriggerClick = commit h).
  { unfold step. cbn [enabled]. by rewrite Hm. }
  rewrite E1. destruct (commit_video h Hlh) as [v1 Hv1].
  set (w1 := commit h) in *.
  assert (Hl1 : liveRendered w1 = true) by (unfold w1; by rewrite commit_liveRendered).
  assert (Hp1 : pending w1 !! nextTask w = Some (AwaitGetUserMedia ByRequest)).
  { unfold w1. rewrite commit_pending, Hpe. apply lookup_insert_eq. }
  rewrite (resolved_world w1 _ _ v1 Hl1 Hp1 Hv1).
  assert (Hst1 : state w1 = state h) by apply commit_state.
  assert (Hns1 : nextStream (platform w1) = nextStream (platform w)).
  { unfold w1. by rewrite commit_platform. }
  rewrite Hns1.
  set (w2 := suspend _ _).
  assert (Hnt1 : nextTask w1 = S (nextTask w)).
  { unfold w1, commit. rewrite Hlh. by destruct (videoRef h). }
  assert (Hm1 : mounted w1 = true).
  { unfold w1. by rewrite commit_mounted, Hmo. }
  assert (Hst2 : state w2 = state h).
  { unfold w2. cbn. rewrite Hst1, Hst. done. }
  assert (Hrender : ∀ x, state x = state h ->
    renderModal (state x) = Some (LiveView true true true)).
  { intros x ->. by rewrite Hst. }
  assert (Hp2 : pending w2 !! S (nextTask w) = Some (AwaitPlay ByRequest)).
  { unfold w2. cbn. rewrite Hnt1. apply lookup_insert_eq. }
  set (w3 := setPermission granted
               (set_pending (delete (S (nextTask w)) (pending w2)) w2)).
  assert (Hl3 : liveRendered w3 = true).
  { unfold liveRendered. change (mounted w3) with (mounted w1).
    rewrite Hm1. unfold w3. cbn. rewrite Hst1, Hst. done. }
  assert (E3 : step w2 (PlaySettled (S (nextTask w)) ok) = w3).
  { unfold step. cbn [enabled handle]. rewrite Hp2.
    by apply (commit_kept _ (arm (nextStream (platform w)) v1)). }
  rewrite E3.
  assert (Hst3 : state w3 =
    {| isOpen := true; capturedImage := None; error := "";
       permission := granted; isLoading := true;
       facingMode := facingMode (state w); isCameraReady := false |}).
  { unfold w3. cbn. rewrite Hst1, Hst. done. }
  set (w4 := setIsLoading false
               (setIsCameraReady true (set_readyCalledRef true w3))).
  assert (Hst4 : state w4 =
    {| isOpen := true; capturedImage := None; error := "";
       permission := granted; isLoading := false;
       facingMode := facingMode (state w); isCameraReady := true |}).
  { unfold w4, setIsLoading, setIsCameraReady, set_readyCalledRef, with_state.
    cbn [state]. rewrite Hst3. done. }
  assert (Hl4 : liveRendered w4 = true).
  { unfold liveRendered. change (mounted w4) with (mounted w1).
    by rewrite Hm1, Hst4. }
  assert (E4 : step w3 e = w4).
  { unfold step.
    assert (Hen : enabled w3 e = true)
      by (destruct e; try discriminate He; reflexivity).
    rewrite Hen.
    assert (Hh : handle e w3 = w4)
      by (destruct e; try discriminate He; reflexivity).
    rewrite Hh. by apply (commit_kept _ (arm (nextStream (platform w)) v1)). }
  rewrite E4.
  split; [by apply Hrender|]. split; [done|].
  split; [unfold w2; cbn; set_solver|].
  split; [by apply Hrender|]. split; [by rewrite Hst3|].
  split; [by rewrite Hst3|]. split; [by rewrite Hst4|].
  cbn [enabled]. rewrite shows_live, Hl4, Hst4. done.
Qed.

(** X6.  The retry button requests a stream whatever the tracked permission
    is, [denied] included: it clears the error, raises the loading flag,
    stops the global stream and calls [getUserMedia] once, with the
    constraints of the current facing mode. *)
Theorem retry_requests_whatever_the_permission (w : World) :
  enabled w RetryClick = true ->
  hasMediaDevices (platform w) = true ->
  let w' := step w RetryClick in
  gumCalls (platform w') =
    (gumCalls (platform w) ++ [constraintsFor (facingMode (state w))])%list ∧
  pending w' !! nextTask w = Some (AwaitGetUserMedia ByRequest) ∧
  error (state w') = "" ∧ isLoading (state w') = true ∧
  isCameraReady (state w') = false ∧
  permission (state w') = permission (state w) ∧
  globalStream w' = None ∧
  (∀ s, globalStream w = Some s -> s ∉ live (platform w')).
Proof.
  intros He Hs. cbv zeta. unfold step. rewrite He.
  rewrite commit_state, commit_platform, commit_pending, commit_globalStream.
  cbn [handle].
  unfold requestCameraAccess, startCamera, stopExistingCameraStreams.
  destruct_world w. rewrite Hs. simpl.
  destruct globalStream0; simpl;
    (split; [done|]); (split; [apply lookup_insert_eq|]);
    do 5 (split; [done|]); intros s' ?; simplify_eq; set_solver.
Qed.

(** X7.  When the request of an open modal is rejected with
    ["NotAllowedError"], the modal renders the error view with the denial
    message and the remediation steps, and the retry button can be
    clicked.  For any other error name the error view is rendered with the
    remediation steps exactly when the permission was [denied] before.
    In both cases the video element leaves the page. *)
Theorem rejection_renders_error_view (w : World) (t : nat) (name : string) :
  pending w !! t = Some (AwaitGetUserMedia ByRequest) ->
  mounted w = true -> isOpen (state w) = true ->
  let w' := step w (GetUserMediaRejected t name) in
  (name = "NotAllowedError" ->
     renderModal (state w') =
       Some (ErrorView
               "Camera access denied. Please allow camera permission and try again."
               true)) ∧
  (name ≠ "NotAllowedError" ->
     renderModal (state w') =
       Some (ErrorView (error (state w'))
               (bool_decide (permission (state w) = denied)))) ∧
  enabled w' RetryClick = true ∧
  videoRef w' = None ∧ canvasRef w' = None ∧
  globalStream w' = globalStream w.
Proof.
  intros Hp Hm Ho. cbv zeta. unfold step. cbn [enabled handle]. rewrite Hp.
  cbn [startCamera_rejected].
  set (x := requestCameraAccess_catch name _).
  assert (Hk : kind (renderCameraView (state x)) = ErrorKind ∧
               isOpen (state x) = true ∧ mounted x = true ∧
               globalStream x = globalStream w).
  { unfold x, requestCameraAccess_catch. destruct_world w. subst.
    repeat case_match; done. }
  destruct Hk as (Hk & Hox & Hmx & Hgx).
  assert (Hl : liveRendered x = false).
  { unfold liveRendered, renderModal. rewrite Hox, Hmx.
    by destruct (renderCameraView (state x)). }
  destruct (commit_unrendered x Hl) as [Hv Hc].
  rewrite commit_state, commit_globalStream.
  split; [|split; [|split; [|done]]].
  3: { cbn [enabled]. unfold shows.
       rewrite commit_mounted, commit_state, Hmx. unfold renderModal.
       rewrite Hox. cbn [andb]. by rewrite Hk. }
  - intros ->. unfold x, requestCameraAccess_catch, renderModal.
    destruct_world w. by subst.
  - intros Hn. apply String.eqb_neq in Hn.
    unfold x, requestCameraAccess_catch, renderModal. rewrite Hn.
    destruct_world w. subst. repeat case_match; done.
Qed.

(** X8.  On a platform without [navigator.mediaDevices.getUserMedia] the
    trigger, with a permission other than [denied], opens the modal on the
    error view with the generic failure message: [getUserMedia] is not
    called, no promise is in flight, the loading flag is down, and the
    global stream and the live streams are left as they were. *)
Theorem open_without_media_devices (w : World) :
  mounted w = true ->
  hasMediaDevices (platform w) = false ->
  permission (state w) ≠ denied ->
  let w' := step w TriggerClick in
  renderModal (state w') =
    Some (ErrorView "Failed to access camera. Please try again." false) ∧
  isLoading (state w') = false ∧
  platform w' = platform w ∧ pending w' = pending w ∧
  globalStream w' = globalStream w ∧
  enabled w' RetryClick = true.
Proof.
  intros Hm Hs Hp. cbv zeta. unfold step. cbn [enabled]. rewrite Hm.
  cbn [handle].
  assert (E : handleOpen w =
    setIsLoading false (setError msgGeneric
      (setIsCameraReady false (setError "" (setIsLoading true
         (setError "" (setCapturedImage None (setIsOpen true w)))))))).
  { unfold handleOpen, requestCameraAccess, startCamera.
    destruct_world w. rewrite Hs. simpl. by destruct permission0. }
  rewrite E. rewrite commit_state, commit_platform, commit_pending,
    commit_globalStream.
  cbn [enabled]. unfold shows. rewrite commit_mounted, commit_state.
  destruct_world w. subst.
  destruct permission0; try done; rewrite bool_decide_eq_false_2 by done;
    done.
Qed.

(** ** Switching *)

(** X9.  Without a global stream [switchCamera] only flips the facing mode:
    nothing is requested, no flag changes, and a second call restores the
    world. *)
Theorem switch_without_stream (w : World) :
  globalStream w = None ->
  switchCamera (switchCamera w) = w ∧
  facingMode (state (switchCamera w)) = toggle (facingMode (state w)) ∧
  (facingMode (state (switchCamera w)) ≠ facingMode (state w)) ∧
  platform (switchCamera w) = platform w ∧
  pending (switchCamera w) = pending w ∧
  isLoading (state (switchCamera w)) = isLoading (state w) ∧
  isCameraReady (state (switchCamera w)) = isCameraReady (state w).
Proof.
  intros Hg. unfold switchCamera. destruct_world w. subst. simpl.
  by destruct facingMode0.
Qed.

(** What [switchCamera] leaves when it requests a stream. *)
Lemma switchCamera_requested (w : World) (s : MediaStream) :
  globalStream w = Some s ->
  hasMediaDevices (platform w) = true ->
  let h := switchCamera w in
  state h =
    {| isOpen := isOpen (state w); capturedImage := capturedImage (state w);
       error := error (state w); permission := permission (state w);
       isLoading := true; facingMode := toggle (facingMode (state w));
       isCameraReady := false |} ∧
  pending h =
    <[nextTask w := AwaitGetUserMedia (BySwitch (facingMode (state w)))]>
      (pending w) ∧
  nextTask h = S (nextTask w) ∧
  nextStream (platform h) = nextStream (platform w) ∧
  live (platform h) = live (platform w) ∖ {[s]} ∧
  gumCalls (platform h) =
    (gumCalls (platform w) ++
       [constraintsFor (toggle (facingMode (state w)))])%list ∧
  globalStream h = None ∧ mounted h = mounted w ∧
  videoRef h = videoRef w.
Proof.
  intros Hg Hs. cbv zeta.
  unfold switchCamera, startCamera, stopExistingCameraStreams.
  destruct_world w. rewrite Hg, Hs. simpl. done.
Qed.

(** The world left by the resolution of [getUserMedia] on a mounted
    video, field by field. *)
Lemma attached_world (x : World) (p : gmap nat Await) (k : Caller)
    (n : MediaStream) (v : HTMLVideoElement) :
  let w2 :=
    suspend (AwaitPlay k)
      (set_videoRef (Some (arm n v))
         (setIsCameraReady false
            (set_readyCalledRef false
               (set_globalStream (Some n)
                  (with_platform open_stream (set_pending p x)))))) in
  state w2 = state (setIsCameraReady false x) ∧
  live (platform w2) = {[nextStream (platform x)]} ∪ live (platform x) ∧
  pending w2 = <[nextTask x := AwaitPlay k]> p ∧
  mounted w2 = mounted x ∧ globalStream w2 = Some n ∧
  videoRef w2 = Some (arm n v) ∧ readyCalledRef w2 = false.
Proof. by destruct x. Qed.

(** X10.  Switching with the camera ready: the click flips the facing mode,
    stops the global stream, calls [getUserMedia] with the constraints of
    the new mode and renders the loading overlay; the resolution puts the
    new stream, live, in [globalStream] while the old one stays stopped;
    after [play()] has settled the facing mode is the new one, the
    readiness flag is down until the next signal, and the permission is
    what it was: this path does not set it. *)
Theorem switch_until_attached (w : World) (s : MediaStream) (ok : bool) :
  refsBound w ->
  enabled w SwitchCameraClick = true ->
  globalStream w = Some s ->
  hasMediaDevices (platform w) = true ->
  nextStream (platform w) ≠ s ->
  let t := nextTask w in
  let n := nextStream (platform w) in
  let w1 := step w SwitchCameraClick in
  let w2 := step w1 (GetUserMediaResolved t) in
  let w3 := step w2 (PlaySettled (S t) ok) in
  (facingMode (state w1) = toggle (facingMode (state w)) ∧
   globalStream w1 = None ∧ (s ∉ live (platform w1)) ∧
   gumCalls (platform w1) =
     (gumCalls (platform w) ++
        [constraintsFor (toggle (facingMode (state w)))])%list ∧
   renderModal (state w1) = Some (LiveView true true true)) ∧
  (globalStream w2 = Some n ∧ n ∈ live (platform w2) ∧
   (s ∉ live (platform w2)) ∧
   ∃ v, videoRef w2 = Some v ∧ srcObject v = Some n) ∧
  (facingMode (state w3) = toggle (facingMode (state w)) ∧
   permission (state w3) = permission (state w) ∧
   isCameraReady (state w3) = false ∧
   renderModal (state w3) = Some (LiveView true true true)).
Proof.
  intros Hb He Hg Hs Hn. cbv zeta.
  destruct (capture_enabled_world w Hb He)
    as ((video & canvas & Hv & Hc) & Hr & Hm & Ho & Her & Hcap).
  pose proof (switchCamera_requested w s Hg Hs) as Hh. cbv zeta in Hh.
  destruct Hh as (Hst & Hpe & Hnt & Hns & Hlv & Hgc & Hgl & Hmo & Hvh).
  assert (E1 : step w SwitchCameraClick = commit (switchCamera w)).
  { unfold step. by rewrite He. }
  rewrite E1. clear E1.
  remember (switchCamera w) as h eqn:Hh. clear Hh.
  assert (Hrender : ∀ st : State,
    isOpen st = true -> error st = "" -> capturedImage st = capturedImage (state w) ->
    isLoading st = true -> isCameraReady st = false ->
    renderModal st = Some (LiveView true true true)).
  { intros st H1 H2 H3 H4 H5. unfold renderModal, renderCameraView.
    by rewrite H1, H2, H3, Hcap, H4, H5. }
  assert (Hrh : renderModal (state h) = Some (LiveView true true true)).
  { apply Hrender; by rewrite Hst. }
  assert (Hlh : liveRendered h = true).
  { unfold liveRendered. by rewrite Hmo, Hm, Hrh. }
  assert (Hv1 : videoRef h = Some video) by exact (eq_trans Hvh Hv).
  rewrite (commit_kept h video Hlh Hv1).
  assert (Hp1 : pending h !! nextTask w =
                Some (AwaitGetUserMedia (BySwitch (facingMode (state w))))).
  { rewrite Hpe. apply lookup_insert_eq. }
  rewrite (resolved_world h _ _ video Hlh Hp1 Hv1).
  match goal with
  | |- context [suspend ?a ?b] =>
      pose proof (attached_world h (delete (nextTask w) (pending h))
                    (BySwitch (facingMode (state w)))
                    (nextStream (platform h)) video) as Hw2;
      cbv zeta in Hw2;
      destruct Hw2 as (Hst2 & Hl2 & Hp2 & Hm2 & Hg2 & Hv2 & _);
      remember (suspend a b) as w2 eqn:Hw2
  end.
  clear Hw2.
  assert (Hst2' : state w2 = state h).
  { rewrite Hst2. unfold setIsCameraReady, with_state. cbn [state].
    rewrite Hst. done. }
  assert (Hq2 : pending w2 !! S (nextTask w) =
                Some (AwaitPlay (BySwitch (facingMode (state w))))).
  { rewrite Hp2, Hnt. apply lookup_insert_eq. }
  assert (E3 : step w2 (PlaySettled (S (nextTask w)) ok) =
               set_pending (delete (S (nextTask w)) (pending w2)) w2).
  { unfold step. cbn [enabled handle]. rewrite Hq2.
    cbn [startCamera_played startCamera_returned].
    apply (commit_kept _ (arm (nextStream (platform h)) video)); [|exact Hv2].
    unfold liveRendered. cbn [mounted set_pending state].
    by rewrite Hm2, Hmo, Hm, Hst2', Hrh. }
  rewrite E3. cbn [state set_pending].
  split; [|split].
  - split; [by rewrite Hst|]. split; [done|].
    split; [rewrite Hlv; set_solver|]. split; [done|]. exact Hrh.
  - rewrite Hg2, Hl2, Hlv, Hv2, Hns. split; [done|].
    split; [set_solver|]. split; [set_solver|]. by eexists.
  - rewrite Hst2', Hst. cbn. split; [done|]. split; [done|]. split; [done|].
    rewrite <- Hst. exact Hrh.
Qed.

(** ** Acquisitions that settle late *)

(** X11.  An acquisition that resolves after the modal was closed still
    stores its stream in [globalStream]: the stream is live while no modal
    is rendered and no video element exists, [play()] is not called, the
    close button cannot be clicked, and the readiness flag is untouched.
    When the acquisition was requested through [requestCameraAccess] the
    permission becomes [granted]. *)
Theorem resolution_after_close_keeps_stream (w : World) (t : nat)
    (k : Caller) :
  refsBound w ->
  isOpen (state w) = false ->
  pending w !! t = Some (AwaitGetUserMedia k) ->
  let w' := step w (GetUserMediaResolved t) in
  globalStream w' = Some (nextStream (platform w)) ∧
  nextStream (platform w) ∈ live (platform w') ∧
  alive w' ≠ 0 ∧
  renderModal (state w') = None ∧
  videoRef w' = None ∧
  pending w' = delete t (pending w) ∧
  enabled w' CloseClick = false ∧
  isCameraReady (state w') = isCameraReady (state w) ∧
  (k = ByRequest -> permission (state w') = granted).
Proof.
  intros Hb Ho Hp. cbv zeta.
  assert (Hl : liveRendered w = false).
  { unfold liveRendered, renderModal. rewrite Ho. apply andb_false_r. }
  unfold refsBound in Hb. rewrite Hl in Hb. destruct Hb as [Hv _].
  unfold step. cbn [enabled handle]. rewrite Hp.
  unfold startCamera_resolved.
  change (videoRef (set_globalStream _ (with_platform open_stream
            (set_pending (delete t (pending w)) w)))) with (videoRef w).
  rewrite Hv.
  set (x := startCamera_returned k _).
  assert (Hx : globalStream x = Some (nextStream (platform w)) ∧
               live (platform x) =
                 {[nextStream (platform w)]} ∪ live (platform w) ∧
               pending x = delete t (pending w) ∧
               isOpen (state x) = false ∧
               isCameraReady (state x) = isCameraReady (state w) ∧
               (k = ByRequest -> permission (state x) = granted)).
  { unfold x. destruct k; by destruct_world w. }
  destruct Hx as (Hg & Hlv & Hpe & Hox & Hr & Hpm).
  assert (Hlx : liveRendered x = false).
  { unfold liveRendered, renderModal. rewrite Hox. apply andb_false_r. }
  destruct (commit_unrendered x Hlx) as [Hvx _].
  cbn [enabled]. unfold alive.
  rewrite commit_globalStream, commit_platform, commit_state, commit_pending,
    commit_mounted, Hlv, Hox.
  split; [done|]. split; [set_solver|].
  split; [apply size_non_empty_iff; set_solver|].
  split; [unfold renderModal; by rewrite Hox|].
  split; [done|]. split; [done|]. split; [apply andb_false_r|]. done.
Qed.

(** ** Requests *)

Lemma step_gumCalls (w : World) (e : Event) :
  gumCalls (platform (step w e)) = gumCalls (platform w) ∨
  ∃ fm, gumCalls (platform (step w e)) =
          (gumCalls (platform w) ++ [constraintsFor fm])%list.
Proof.
  unfold step. destruct (enabled w e); [|by left].
  rewrite commit_platform.
  destruct e; cbn [handle]; unfold startCamera_resolved, informCameraReady;
    crush_world w;
    first [ by left | right; by eexists ].
Qed.

(** X12.  Every [getUserMedia] call the component ever makes asks for the
    ideal resolution 1280x720, and one callback makes at most one call. *)
Theorem requests_ask_for_1280x720 (w : World) (es : list Event) :
  Forall idealResolution (gumCalls (platform w)) ->
  Forall idealResolution (gumCalls (platform (run w es))) ∧
  (attempts (run w es) ≤ attempts w + length es)%nat.
Proof.
  revert w. induction es as [|e es IH]; intros w Hw.
  - split; [done|]. simpl. lia.
  - unfold run in *. cbn [foldl length].
    assert (H1 : Forall idealResolution (gumCalls (platform (step w e))) ∧
                 (attempts (step w e) ≤ S (attempts w))%nat).
    { unfold attempts.
      destruct (step_gumCalls w e) as [-> | [fm ->]].
      - split; [done | lia].
      - split.
        + apply Forall_app. split; [done|]. by repeat constructor.
        + rewrite length_app. simpl. lia. }
    destruct H1 as [H1 H2]. destruct (IH _ H1) as [H3 H4].
    split; [done | lia].
Qed.

(** ** The closed widget *)

Lemma closed_unrendered (w : World) :
  refsBound w -> isOpen (state w) = false -> videoRef w = None.
Proof.
  intros Hb Ho. unfold refsBound, liveRendered, renderModal in Hb.
  rewrite Ho, andb_false_r in Hb. by destruct Hb.
Qed.

Lemma step_closedClean (w : World) (e : Event) :
  refsBound w -> closedClean w -> closedClean (step w e).
Proof.
  intros Hb Hc. unfold step. destruct (enabled w e) eqn:He; [|done].
  unfold closedClean. rewrite commit_state.
  pose proof (closed_unrendered w Hb) as Hv.
  unfold closedClean in Hc. clear Hb.
  destruct e; cbn [handle enabled] in *;
    unfold startCamera_resolved, informCameraReady, shows, renderModal in *.
  all: crush_world w.
  all: try (intros; by auto).
  all: try (rewrite ?andb_false_r in He; done).
  all: intros Ho; try (specialize (Hv Ho); discriminate);
    specialize (Hc Ho); by subst.
Qed.

(** X13.  In every world the component reaches, whatever the order of
    clicks, settlements and media events, a closed modal holds no captured
    frame and has no video and no canvas element: a frame is stored only
    by a capture in the live view, and every way of closing drops it. *)
Theorem closed_modal_holds_no_session (p : Platform)
    (img : option HTMLImageElement) (es : list Event) :
  let w := run (initial p img) es in
  isOpen (state w) = false ->
  capturedImage (state w) = None ∧ videoRef w = None ∧ canvasRef w = None.
Proof.
  cbv zeta.
  assert (G : ∀ w, refsBound w -> closedClean w ->
                   refsBound (run w es) ∧ closedClean (run w es)).
  { induction es as [|e es IH]; intros w Hb Hc; [done|].
    apply IH; [by apply step_refsBound | by apply step_closedClean]. }
  destruct (G (initial p img)) as [Hb Hc]; [done|done|].
  intros Ho. split; [by apply Hc|].
  unfold refsBound, liveRendered, renderModal in Hb.
  rewrite Ho, andb_false_r in Hb. exact Hb.
Qed.

(** ** What the callbacks never touch *)

Lemma step_orphan (w : World) (e : Event) (s : MediaStream) :
  s ∈ live (platform w) -> globalStream w ≠ Some s ->
  (s < nextStream (platform w))%nat ->
  s ∈ live (platform (step w e)) ∧ globalStream (step w e) ≠ Some s ∧
  (s < nextStream (platform (step w e)))%nat.
Proof.
  intros Hl Hg Hn. unfold step. destruct (enabled w e); [|done].
  rewrite commit_platform, commit_globalStream.
  destruct e; cbn [handle]; unfold startCamera_resolved, informCameraReady;
    crush_world w.
  all: simpl; try (split; [set_solver|]; split; [congruence|]; lia).
  all: split; [set_solver|]; split; [|lia]; intros [= E]; lia.
Qed.

(** X14.  A live stream that is not the one in [globalStream] is stopped by
    no callback: whatever is clicked and whatever settles afterwards,
    close and unmount included, it stays live and never returns to
    [globalStream].  (Streams are numbered in the order the platform hands
    them out.) *)
Theorem stream_outside_slot_is_never_stopped (w : World) (s : MediaStream)
    (es : list Event) :
  s ∈ live (platform w) ->
  globalStream w ≠ Some s ->
  (s < nextStream (platform w))%nat ->
  s ∈ live (platform (run w es)) ∧ globalStream (run w es) ≠ Some s ∧
  alive (run w es) ≠ 0.
Proof.
  intros Hl Hg Hn.
  assert (G : s ∈ live (platform (run w es)) ∧
              globalStream (run w es) ≠ Some s).
  { revert w Hl Hg Hn. induction es as [|e es IH]; intros w Hl Hg Hn; [done|].
    destruct (step_orphan w e s Hl Hg Hn) as (H1 & H2 & H3).
    by apply (IH (step w e)). }
  destruct G as [G1 G2]. split; [done|]. split; [done|].
  unfold alive. apply size_non_empty_iff. set_solver.
Qed.

Lemma step_facingMode (w : World) (e : Event) :
  e ≠ SwitchCameraClick -> (∀ t n, e ≠ GetUserMediaRejected t n) ->
  facingMode (state (step w e)) = facingMode (state w).
Proof.
  intros H1 H2. unfold step. destruct (enabled w e); [|done].
  rewrite commit_state.
  destruct e; cbn [handle]; unfold startCamera_resolved, informCameraReady;
    try done; try (by destruct (H2 task name)); crush_world w.
Qed.

(** X15.  The facing mode is changed by the switch button and by the
    rejection of an acquisition only: through every other callback, in
    particular through closing and opening the modal, capturing,
    retaking and confirming, it is kept. *)
Theorem facing_mode_kept_without_switch (w : World) (es : list Event) :
  Forall (λ e, e ≠ SwitchCameraClick ∧ ∀ t n, e ≠ GetUserMediaRejected t n)
    es ->
  facingMode (state (run w es)) = facingMode (state w).
Proof.
  intros Hes. revert w. induction Hes as [|e es [H1 H2] _ IH]; intros w;
    [done|].
  unfold run in *. cbn [foldl]. rewrite IH. by apply step_facingMode.
Qed.

(** X16.  The caller's image is written by a confirm click only, and then
    with the captured frame, which is not empty: every other callback, and
    a confirm click that does not go through, leaves [imageRef.current] as
    it is. *)
Theorem image_written_only_by_confirm (w : World) (e : Event) :
  imageRef (step w e) = imageRef w ∨
  (e = ConfirmClick ∧
   ∃ img, capturedImage (state w) = Some img ∧ img ≠ "" ∧
          imageRef (step w e) = Some {| src := img |}).
Proof.
  unfold step. destruct (enabled w e); [|by left].
  rewrite commit_imageRef.
  destruct e; cbn [handle]; unfold startCamera_resolved, informCameraReady;
    crush_world w; try by left.
  all: right; split; [done|]; eexists; split; [done|];
    split; [by apply truthy_true | done].
Qed.

(** ** Runs in turn *)

Lemma run_singleSlot (es : list Event) (w : World) :
  singleSlot w -> allInTurn w es -> singleSlot (run w es).
Proof.
  revert w. induction es as [|e es IH]; intros w Hs Ht; [done|].
  destruct Ht as [Ht Hts]. apply IH; [by apply step_singleSlot | done].
Qed.

(** X17.  Starting from a mounted component on a platform without live
    streams, as long as no click and no unmount uses the camera while a
    [getUserMedia] promise is in flight, at most one stream is live in
    every world passed through, whatever the settlements and media events
    in between; and a close click or the unmount that follows such a run
    leaves no stream live and the global slot empty. *)
Theorem runs_in_turn_hold_one_stream (p : Platform)
    (img : option HTMLImageElement) (es : list Event) :
  live p = ∅ ->
  allInTurn (initial p img) es ->
  Forall (λ w', (alive w' ≤ 1)%nat) (passes (initial p img) es) ∧
  ∀ e, enabled (run (initial p img) es) e = true ->
       e = CloseClick ∨ e = Unmount ->
       alive (step (run (initial p img) es) e) = 0 ∧
       globalStream (step (run (initial p img) es) e) = None.
Proof.
  intros Hl Ht. pose proof (singleSlot_initial p img Hl) as Hs. split.
  - by apply in_turn_at_most_one_stream.
  - intros e He Hc. apply close_leaves_no_stream; [|done|done].
    by apply run_singleSlot.
Qed.

(** * The further properties at sample worlds *)

Lemma readyWorld_refsBound : refsBound readyWorld.
Proof. apply run_refsBound, initial_refsBound. Qed.

Lemma previewWorld_refsBound : refsBound previewWorld.
Proof. apply step_refsBound, readyWorld_refsBound. Qed.

Lemma previewWorld_frame :
  hasFrame (state previewWorld) "data:image/jpeg;base64,/9j/4AAQ".
Proof. split; [vm_compute; reflexivity | discriminate]. Qed.

Lemma retake_returns_to_live_witness :
  mounted previewWorld = true ∧ isOpen (state previewWorld) = true ∧
  error (state previewWorld) = "" ∧
  capturedImage (state (step previewWorld RetakeClick)) = None ∧
  globalStream (step previewWorld RetakeClick) = globalStream previewWorld.
Proof.
  assert (H1 : mounted previewWorld = true) by (vm_compute; reflexivity).
  assert (H2 : isOpen (state previewWorld) = true) by (vm_compute; reflexivity).
  assert (H3 : error (state previewWorld) = "") by (vm_compute; reflexivity).
  destruct (retake_returns_to_live previewWorld _ previewWorld_refsBound
              H1 H2 H3 previewWorld_frame) as (Hc & _ & _ & Hg & _).
  split; [exact H1|]. split; [exact H2|]. split; [exact H3|].
  split; [exact Hc | exact Hg].
Defined.

Lemma capture_after_retake_finds_no_video_witness :
  isCameraReady (state previewWorld) = true ∧
  hasContext2d (platform previewWorld) = true ∧
  videoRef (step previewWorld RetakeClick) = Some fresh_video ∧
  capturedImage
    (state (step (step previewWorld RetakeClick) CaptureClick)) = None.
Proof.
  assert (H1 : mounted previewWorld = true) by (vm_compute; reflexivity).
  assert (H2 : isOpen (state previewWorld) = true) by (vm_compute; reflexivity).
  assert (H3 : error (state previewWorld) = "") by (vm_compute; reflexivity).
  assert (H4 : isCameraReady (state previewWorld) = true)
    by (vm_compute; reflexivity).
  assert (H5 : hasContext2d (platform previewWorld) = true)
    by (vm_compute; reflexivity).
  destruct (capture_after_retake_finds_no_video previewWorld _
              previewWorld_refsBound H1 H2 H3 previewWorld_frame H4 H5)
    as (Hv & _ & _ & _ & Hc & _).
  split; [exact H4|]. split; [exact H5|]. split; [exact Hv | exact Hc].
Defined.

Lemma capture_click_never_silent_witness :
  enabled readyWorld CaptureClick = true ∧
  ((∃ url, capturedImage (state (step readyWorld CaptureClick)) = Some url ∧
           renderModal (state (step readyWorld CaptureClick)) =
             Some (PreviewView url)) ∨
   (error (state (step readyWorld CaptureClick)) ≠ "" ∧
    capturedImage (state (step readyWorld CaptureClick)) =
      capturedImage (state readyWorld) ∧
    renderModal (state (step readyWorld CaptureClick)) =
      Some (ErrorView (error (state (step readyWorld CaptureClick)))
              (bool_decide (permission (state readyWorld) = denied))))).
Proof.
  assert (H : enabled readyWorld CaptureClick = true)
    by (vm_compute; reflexivity).
  split; [exact H|].
  exact (capture_click_never_silent readyWorld readyWorld_refsBound H).
Defined.

Lemma capture_then_confirm_witness :
  enabled readyWorld CaptureClick = true ∧
  videoRef readyWorld = Some readyVideo ∧
  canvasRef readyWorld = Some fresh_canvas ∧
  imageRef readyWorld = Some {| src := "" |} ∧
  imageRef (run readyWorld [CaptureClick; ConfirmClick]) =
    Some {| src := "data:image/jpeg;base64,/9j/4AAQ" |} ∧
  globalStream (run readyWorld [CaptureClick; ConfirmClick]) = None.
Proof.
  assert (H1 : enabled readyWorld CaptureClick = true)
    by (vm_compute; reflexivity).
  assert (H2 : videoRef readyWorld = Some readyVideo)
    by (vm_compute; reflexivity).
  assert (H3 : canvasRef readyWorld = Some fresh_canvas)
    by (vm_compute; reflexivity).
  assert (H4 : hasContext2d (platform readyWorld) = true)
    by (vm_compute; reflexivity).
  assert (H5 : videoWidth readyVideo ≠ 0%N) by discriminate.
  assert (H6 : videoHeight readyVideo ≠ 0%N) by discriminate.
  assert (H7 : imageRef readyWorld = Some {| src := "" |})
    by (vm_compute; reflexivity).
  assert (H8 : (videoWidth readyVideo ≤ 2147483647)%N) by (simpl; lia).
  assert (H9 : (videoHeight readyVideo ≤ 2147483647)%N) by (simpl; lia).
  pose proof (capture_then_confirm readyWorld readyVideo fresh_canvas _
                readyWorld_refsBound H1 H2 H3 H4 H5 H6 H8 H9 H7) as H.
  cbv zeta in H.
  assert (U1 : toDataURL (platform readyWorld)
                 (paint (facingMode (state readyWorld)) readyVideo fresh_canvas)
                 "image/jpeg" (QArith_base.Qmake 8 10) ≠ "")
    by (intros E; vm_compute in E; discriminate E).
  assert (U2 : toDataURL (platform readyWorld)
                 (paint (facingMode (state readyWorld)) readyVideo fresh_canvas)
                 "image/jpeg" (QArith_base.Qmake 8 10) ≠ "data:,")
    by (intros E; vm_compute in E; discriminate E).
  destruct (H U1 U2) as (Hi & _ & _ & Hg & _).
  split; [exact H1|]. split; [exact H2|]. split; [exact H3|].
  split; [exact H7|]. split; [|exact Hg].
  rewrite Hi. vm_compute. reflexivity.
Defined.

Lemma open_until_ready_witness :
  mounted sampleWorld = true ∧
  hasMediaDevices (platform sampleWorld) = true ∧
  permission (state sampleWorld) ≠ denied ∧
  enabled
    (run sampleWorld
       [TriggerClick; GetUserMediaResolved 0; PlaySettled 1 false;
        VideoPlaying])
    CaptureClick = true.
Proof.
  assert (H1 : mounted sampleWorld = true) by reflexivity.
  assert (H2 : hasMediaDevices (platform sampleWorld) = true) by reflexivity.
  assert (H3 : permission (state sampleWorld) ≠ denied) by discriminate.
  pose proof (open_until_ready sampleWorld false VideoPlaying H1 H2 H3 eq_refl)
    as H.
  cbv zeta in H. destruct H as (_ & _ & _ & _ & _ & _ & _ & H & _).
  split; [exact H1|]. split; [exact H2|]. split; [exact H3|]. exact H.
Defined.

Lemma retry_requests_whatever_the_permission_witness :
  enabled deniedErrorWorld RetryClick = true ∧
  hasMediaDevices (platform deniedErrorWorld) = true ∧
  permission (state deniedErrorWorld) = denied ∧
  error (state (step deniedErrorWorld RetryClick)) = "" ∧
  isLoading (state (step deniedErrorWorld RetryClick)) = true.
Proof.
  assert (H1 : enabled deniedErrorWorld RetryClick = true)
    by (vm_compute; reflexivity).
  assert (H2 : hasMediaDevices (platform deniedErrorWorld) = true)
    by (vm_compute; reflexivity).
  destruct (retry_requests_whatever_the_permission deniedErrorWorld H1 H2)
    as (_ & _ & He & Hl & _).
  split; [exact H1|]. split; [exact H2|].
  split; [vm_compute; reflexivity|]. split; [exact He | exact Hl].
Defined.

Lemma rejection_renders_error_view_witness :
  pending openingWorld !! 0 = Some (AwaitGetUserMedia ByRequest) ∧
  mounted openingWorld = true ∧ isOpen (state openingWorld) = true ∧
  enabled (step openingWorld (GetUserMediaRejected 0 "NotFoundError"))
    RetryClick = true ∧
  videoRef (step openingWorld (GetUserMediaRejected 0 "NotFoundError")) = None.
Proof.
  assert (H1 : pending openingWorld !! 0 = Some (AwaitGetUserMedia ByRequest))
    by (vm_compute; reflexivity).
  assert (H2 : mounted openingWorld = true) by (vm_compute; reflexivity).
  assert (H3 : isOpen (state openingWorld) = true) by (vm_compute; reflexivity).
  destruct (rejection_renders_error_view openingWorld 0 "NotFoundError"
              H1 H2 H3) as (_ & _ & He & Hv & _).
  split; [exact H1|]. split; [exact H2|]. split; [exact H3|].
  split; [exact He | exact Hv].
Defined.

Lemma open_without_media_devices_witness :
  mounted bareWorld = true ∧
  hasMediaDevices (platform bareWorld) = false ∧
  permission (state bareWorld) ≠ denied ∧
  renderModal (state (step bareWorld TriggerClick)) =
    Some (ErrorView "Failed to access camera. Please try again." false).
Proof.
  assert (H1 : mounted bareWorld = true) by reflexivity.
  assert (H2 : hasMediaDevices (platform bareWorld) = false) by reflexivity.
  assert (H3 : permission (state bareWorld) ≠ denied) by discriminate.
  destruct (open_without_media_devices bareWorld H1 H2 H3) as (H & _).
  split; [exact H1|]. split; [exact H2|]. split; [exact H3 | exact H].
Defined.

Lemma switch_without_stream_witness :
  globalStream sampleWorld = None ∧
  switchCamera (switchCamera sampleWorld) = sampleWorld ∧
  facingMode (state (switchCamera sampleWorld)) = environment.
Proof.
  assert (H : globalStream sampleWorld = None) by reflexivity.
  destruct (switch_without_stream sampleWorld H) as (H1 & H2 & _).
  split; [exact H|]. split; [exact H1 | exact H2].
Defined.

Lemma switch_until_attached_witness :
  enabled readyWorld SwitchCameraClick = true ∧
  globalStream readyWorld = Some 0 ∧
  hasMediaDevices (platform readyWorld) = true ∧
  nextStream (platform readyWorld) ≠ 0 ∧
  globalStream
    (step (step readyWorld SwitchCameraClick)
       (GetUserMediaResolved (nextTask readyWorld))) =
    Some (nextStream (platform readyWorld)) ∧
  facingMode
    (state
       (step
          (step (step readyWorld SwitchCameraClick)
             (GetUserMediaResolved (nextTask readyWorld)))
          (PlaySettled (S (nextTask readyWorld)) true))) =
    toggle (facingMode (state readyWorld)).
Proof.
  assert (H1 : enabled readyWorld SwitchCameraClick = true)
    by (vm_compute; reflexivity).
  assert (H2 : globalStream readyWorld = Some 0) by (vm_compute; reflexivity).
  assert (H3 : hasMediaDevices (platform readyWorld) = true)
    by (vm_compute; reflexivity).
  assert (H4 : nextStream (platform readyWorld) ≠ 0)
    by (intros E; vm_compute in E; discriminate E).
  pose proof (switch_until_attached readyWorld 0 true readyWorld_refsBound
                H1 H2 H3 H4) as H.
  cbv zeta in H. destruct H as (_ & (Hg & _) & (Hf & _)).
  split; [exact H1|]. split; [exact H2|]. split; [exact H3|].
  split; [exact H4|]. split; [exact Hg | exact Hf].
Defined.

Lemma closedEarlyWorld_refsBound : refsBound closedEarlyWorld.
Proof. apply run_refsBound, initial_refsBound. Qed.

Lemma resolution_after_close_keeps_stream_witness :
  isOpen (state closedEarlyWorld) = false ∧
  pending closedEarlyWorld !! 0 = Some (AwaitGetUserMedia ByRequest) ∧
  globalStream (step closedEarlyWorld (GetUserMediaResolved 0)) =
    Some (nextStream (platform closedEarlyWorld)) ∧
  alive (step closedEarlyWorld (GetUserMediaResolved 0)) ≠ 0.
Proof.
  assert (H1 : isOpen (state closedEarlyWorld) = false)
    by (vm_compute; reflexivity).
  assert (H2 : pending closedEarlyWorld !! 0 =
               Some (AwaitGetUserMedia ByRequest))
    by (vm_compute; reflexivity).
  destruct (resolution_after_close_keeps_stream closedEarlyWorld 0 ByRequest
              closedEarlyWorld_refsBound H1 H2) as (Hg & _ & Ha & _).
  split; [exact H1|]. split; [exact H2|]. split; [exact Hg | exact Ha].
Defined.

Lemma requests_ask_for_1280x720_witness :
  Forall idealResolution (gumCalls (platform sampleWorld)) ∧
  Forall idealResolution
    (gumCalls (platform (run sampleWorld [TriggerClick; CloseClick; TriggerClick]))).
Proof.
  assert (H : Forall idealResolution (gumCalls (platform sampleWorld)))
    by constructor.
  split; [exact H|].
  exact (proj1 (requests_ask_for_1280x720 sampleWorld
                  [TriggerClick; CloseClick; TriggerClick] H)).
Defined.

Lemma closed_modal_holds_no_session_witness :
  isOpen
    (state
       (run (initial (browser sampleEncoder) None)
          [TriggerClick; GetUserMediaResolved 0; VideoPlaying;
           VideoResized 1280 720; CaptureClick; CloseClick]))
    = false ∧
  capturedImage
    (state
       (run (initial (browser sampleEncoder) None)
          [TriggerClick; GetUserMediaResolved 0; VideoPlaying;
           VideoResized 1280 720; CaptureClick; CloseClick]))
    = None.
Proof.
  assert (H : isOpen
    (state
       (run (initial (browser sampleEncoder) None)
          [TriggerClick; GetUserMediaResolved 0; VideoPlaying;
           VideoResized 1280 720; CaptureClick; CloseClick]))
    = false) by (vm_compute; reflexivity).
  split; [exact H|].
  exact (proj1 (closed_modal_holds_no_session (browser sampleEncoder) None
                  [TriggerClick; GetUserMediaResolved 0; VideoPlaying;
                   VideoResized 1280 720; CaptureClick; CloseClick] H)).
Defined.

Lemma stream_outside_slot_is_never_stopped_witness :
  0 ∈ live (platform leakedWorld) ∧
  globalStream leakedWorld ≠ Some 0 ∧
  (0 < nextStream (platform leakedWorld))%nat ∧
  0 ∈ live (platform (run leakedWorld [CloseClick; TriggerClick; Unmount])).
Proof.
  assert (H1 : 0 ∈ live (platform leakedWorld)).
  { apply elem_of_elements.
    assert (E : elements (live (platform leakedWorld)) = [1; 0])
      by (vm_compute; reflexivity).
    rewrite E. apply list_elem_of_In. simpl. auto. }
  assert (H2 : globalStream leakedWorld ≠ Some 0)
    by (intros E; vm_compute in E; discriminate E).
  assert (H3 : (0 < nextStream (platform leakedWorld))%nat).
  { assert (E : nextStream (platform leakedWorld) = 2)
      by (vm_compute; reflexivity).
    rewrite E. lia. }
  split; [exact H1|]. split; [exact H2|]. split; [exact H3|].
  exact (proj1 (stream_outside_slot_is_never_stopped leakedWorld 0
                  [CloseClick; TriggerClick; Unmount] H1 H2 H3)).
Defined.

Lemma facing_mode_kept_without_switch_witness :
  Forall (λ e, e ≠ SwitchCameraClick ∧ ∀ t n, e ≠ GetUserMediaRejected t n)
    [CloseClick; TriggerClick] ∧
  facingMode (state (run readyWorld [CloseClick; TriggerClick])) =
    facingMode (state readyWorld).
Proof.
  assert (H : Forall
    (λ e, e ≠ SwitchCameraClick ∧ ∀ t n, e ≠ GetUserMediaRejected t n)
    [CloseClick; TriggerClick])
    by (repeat constructor; intros; discriminate).
  split; [exact H|].
  exact (facing_mode_kept_without_switch readyWorld [CloseClick; TriggerClick] H).
Defined.

Lemma runs_in_turn_hold_one_stream_witness :
  live (browser sampleEncoder) = ∅ ∧
  allInTurn (initial (browser sampleEncoder) None)
    [TriggerClick; GetUserMediaResolved 0] ∧
  Forall (λ w', (alive w' ≤ 1)%nat)
    (passes (initial (browser sampleEncoder) None)
       [TriggerClick; GetUserMediaResolved 0]).
Proof.
  assert (H1 : live (browser sampleEncoder) = ∅) by reflexivity.
  assert (H2 : allInTurn (initial (browser sampleEncoder) None)
                 [TriggerClick; GetUserMediaResolved 0]).
  { split; [|split; [|exact I]].
    - intros _ (t & k & H). simpl in H. rewrite lookup_empty in H.
      discriminate H.
    - intros H. discriminate H. }
  split; [exact H1|]. split; [exact H2|].
  exact (proj1 (runs_in_turn_hold_one_stream (browser sampleEncoder) None
                  [TriggerClick; GetUserMediaResolved 0] H1 H2)).
Defined.
